(** * mysql_helper_functions: a shallow embedding and its properties

    The Python module [mysql_helper_functions.py] is a thin data-access
    layer over a MySQL connection: it renders SQL text from table names,
    column lists and values, runs it through a cursor, and marshals the
    fetched rows into a data frame.

    The embedding has three layers.
    - Python data: values, exceptions, data frames.
    - The database client ([mysql.connector]) as a [Driver]: a record of
      operations over an abstract connection state, each of which either
      returns or raises [connector.Error].
    - The functions of the module, written in a small monad that threads
      the function's local variables and the world (connection state and
      the trace of client calls), with Python's [try]/[except]/[finally]
      and early [return].

    Console output ([print]) has no influence on control flow and is not
    modelled. *)

From Stdlib Require Import String Ascii List ZArith Bool Arith Lia DecimalString.
Import ListNotations.
Set Warnings "-register-all".
Local Open Scope list_scope.
Local Open Scope string_scope.

(** ** Python data *)

(** Python objects that flow through the module: scalars, tuples (filter
    values, fetched rows) and the [pandas.Series] that [row[label]] yields
    when a label is duplicated. *)
Inductive value : Type :=
| VInt (z : Z)
| VStr (s : string)
| VNone
| VTuple (items : list value)
| VSeries (items : list value).

(** [isinstance(v, tuple)] *)
Definition is_tuple (v : value) : bool :=
  match v with
  | VTuple _ => true
  | _ => false
  end.

Inductive exn : Type :=
| ConnectorError (msg : string)
| UnboundLocalError (var : string)
| KeyError (key : string)
| ValueError (msg : string)
| TypeError (msg : string)
| IndexError (msg : string).

(** How a Python call ends. *)
Inductive outcome (R : Type) : Type :=
| Return (r : R)
| Raise (e : exn).
Arguments Return {R} r.
Arguments Raise {R} e.

Definition is_return {R} (o : outcome R) : bool :=
  match o with
  | Return _ => true
  | Raise _ => false
  end.

(** ** Data frames *)

(** A [pandas.DataFrame]: column labels and the rows of [df.values]. *)
Record DataFrame : Type := mkDataFrame {
  columns : list value;
  values : list (list value)
}.

(** [df.empty]: true when either axis has length 0. *)
Definition empty (df : DataFrame) : bool :=
  Nat.eqb (length (columns df)) 0 || Nat.eqb (length (values df)) 0.

Definition row_width (rows : list (list value)) : nat :=
  fold_right (fun r m => Nat.max (length r) m) 0 rows.

(** [pd.DataFrame(rows)] for a list of tuples: the labels are the
    positions [0 .. width-1]. Rows fetched from one result set have equal
    length and are kept as fetched. *)
Definition DataFrame_of_rows (rows : list (list value)) : DataFrame :=
  {| columns := map (fun n => VInt (Z.of_nat n)) (seq 0 (row_width rows));
     values := rows |}.

(** [df.columns = names]: pandas raises [ValueError] on a length mismatch. *)
Definition set_columns (df : DataFrame) (names : list value) : outcome DataFrame :=
  if Nat.eqb (length names) (length (columns df))
  then Return {| columns := names; values := values df |}
  else Raise (ValueError "Length mismatch").

(** One row of [df.iterrows()]: a Series indexed by the frame's labels. *)
Definition Row : Type := list (value * value).

Definition iterrows (df : DataFrame) : list Row :=
  map (fun r => combine (columns df) r) (values df).

(** [row.values.tolist()] *)
Definition row_values (row : Row) : list value := map snd row.

Definition label_is (key : string) (l : value) : bool :=
  match l with
  | VStr s => String.eqb s key
  | _ => false
  end.

(** [row[key]] for a string key: [KeyError] when no label matches, the
    scalar when exactly one does, a Series of the matches otherwise. *)
Definition row_getitem (row : Row) (key : string) : outcome value :=
  match filter (fun p => label_is key (fst p)) row with
  | [] => Raise (KeyError key)
  | [p] => Return (snd p)
  | ps => Return (VSeries (map snd ps))
  end.

(** ** The database client *)

Inductive dres (A : Type) : Type :=
| DOk (a : A)
| DErr (msg : string).
Arguments DOk {A} a.
Arguments DErr {A} msg.

Definition handle : Type := nat.

(** The operations of [mysql.connector] the module calls on its
    connection and cursors. [DErr msg] is a raised [connector.Error]. The
    second argument of [d_execute] is the statement text, the third the
    parameters ([None] when [execute] is called with the text alone). *)
Record Driver : Type := mkDriver {
  dstate : Type;
  d_cursor : dstate -> dstate * dres handle;
  d_execute : handle -> string -> option value -> dstate -> dstate * dres unit;
  d_fetchall : handle -> dstate -> dstate * dres (list (list value));
  d_commit : dstate -> dstate * dres unit;
  d_rollback : dstate -> dstate * dres unit;
  d_cursor_close : handle -> dstate -> dstate * dres unit;
  d_close : dstate -> dstate * dres unit
}.

(** Calls made on the connection, in order. *)
Inductive event : Type :=
| EvCursor
| EvExecute (h : handle) (query : string) (params : option value)
| EvFetchall (h : handle)
| EvCommit
| EvRollback
| EvCursorClose (h : handle)
| EvClose.

Definition is_execute (e : event) : bool :=
  match e with
  | EvExecute _ _ _ => true
  | _ => false
  end.

Definition is_commit (e : event) : bool :=
  match e with
  | EvCommit => true
  | _ => false
  end.

Record World (D : Driver) : Type := mkWorld {
  w_conn : dstate D;
  w_trace : list event
}.
Arguments mkWorld {D} _ _.
Arguments w_conn {D} _.
Arguments w_trace {D} _.

(** ** The statement monad *)

(** How a statement ends: it falls through with a value, executes
    [return], or raises. *)
Inductive step (R A : Type) : Type :=
| Next (a : A)
| Ret (r : R)
| Exc (e : exn).
Arguments Next {R A} a.
Arguments Ret {R A} r.
Arguments Exc {R A} e.

(** The local variables that a function may read before binding them. *)
Record Locals (X : Type) : Type := mkLocals {
  l_cursor : option handle;
  l_result : option X
}.
Arguments mkLocals {X} _ _.
Arguments l_cursor {X} _.
Arguments l_result {X} _.

Definition no_locals {X} : Locals X := mkLocals None None.

Section Monad.
Context {D : Driver}.

Definition M (X R A : Type) : Type :=
  Locals X -> World D -> Locals X * World D * step R A.

Definition pure {X R A} (a : A) : M X R A :=
  fun l w => (l, w, Next a).

Definition bind {X R A B} (m : M X R A) (f : A -> M X R B) : M X R B :=
  fun l w =>
    match m l w with
    | (l', w', Next a) => f a l' w'
    | (l', w', Ret r) => (l', w', Ret r)
    | (l', w', Exc e) => (l', w', Exc e)
    end.

(** [return r] *)
Definition return_ {X R A} (r : R) : M X R A :=
  fun l w => (l, w, Ret r).

Definition raise {X R A} (e : exn) : M X R A :=
  fun l w => (l, w, Exc e).

(** A pure computation that may raise. *)
Definition lift_outcome {X R A} (o : outcome A) : M X R A :=
  match o with
  | Return a => pure a
  | Raise e => raise e
  end.

(** [try: body / except connector.Error as err: handler]. Only
    [connector.Error] is caught; what the handler raises propagates. *)
Definition try_except {X R} (body : M X R unit) (handler : string -> M X R unit)
  : M X R unit :=
  fun l w =>
    match body l w with
    | (l', w', Exc (ConnectorError msg)) => handler msg l' w'
    | r => r
    end.

(** [try: body / finally: fin]. [fin] always runs; when it falls
    through, the way [body] ended stands, otherwise its own [return] or
    exception replaces it. *)
Definition try_finally {X R} (body : M X R unit) (fin : M X R unit)
  : M X R unit :=
  fun l w =>
    match body l w with
    | (l1, w1, s) =>
        match fin l1 w1 with
        | (l2, w2, Next _) => (l2, w2, s)
        | r => r
        end
    end.

(** [for x in xs: body x] *)
Fixpoint for_each {X R A} (xs : list A) (body : A -> M X R unit) : M X R unit :=
  match xs with
  | [] => pure tt
  | x :: rest => bind (body x) (fun _ => for_each rest body)
  end.

(** Reading and binding the locals. *)
Definition get_cursor {X R} : M X R handle :=
  fun l w =>
    match l_cursor l with
    | Some h => (l, w, Next h)
    | None => (l, w, Exc (UnboundLocalError "cursor"))
    end.

Definition set_cursor {X R} (h : handle) : M X R unit :=
  fun l w => (mkLocals (Some h) (l_result l), w, Next tt).

Definition get_result {X R} : M X R X :=
  fun l w =>
    match l_result l with
    | Some r => (l, w, Next r)
    | None => (l, w, Exc (UnboundLocalError "result"))
    end.

Definition set_result {X R} (r : X) : M X R unit :=
  fun l w => (mkLocals (l_cursor l) (Some r), w, Next tt).

(** A call on the connection: the event is recorded, the driver runs,
    and an error surfaces as [connector.Error]. *)
Definition client_call {X R A} (ev : event)
    (op : dstate D -> dstate D * dres A) : M X R A :=
  fun l w =>
    match op (w_conn w) with
    | (c, DOk a) => (l, mkWorld c (w_trace w ++ [ev])%list, Next a)
    | (c, DErr msg) => (l, mkWorld c (w_trace w ++ [ev])%list, Exc (ConnectorError msg))
    end.

Definition conn_cursor {X R} : M X R handle :=
  client_call EvCursor (d_cursor D).

Definition cursor_execute {X R} (h : handle) (query : string) (params : option value)
  : M X R unit :=
  client_call (EvExecute h query params) (d_execute D h query params).

Definition cursor_fetchall {X R} (h : handle) : M X R (list (list value)) :=
  client_call (EvFetchall h) (d_fetchall D h).

Definition conn_commit {X R} : M X R unit :=
  client_call EvCommit (d_commit D).

Definition conn_rollback {X R} : M X R unit :=
  client_call EvRollback (d_rollback D).

Definition cursor_close {X R} (h : handle) : M X R unit :=
  client_call (EvCursorClose h) (d_cursor_close D h).

Definition conn_close {X R} : M X R unit :=
  client_call EvClose (d_close D).

(** Running a function body from fresh locals. A body that falls off
    its end returns [None]. *)
Definition call {X R} (body : M X (option R) unit) (w : World D)
  : World D * outcome (option R) :=
  match body no_locals w with
  | (_, w', Next _) => (w', Return None)
  | (_, w', Ret r) => (w', Return r)
  | (_, w', Exc e) => (w', Raise e)
  end.
End Monad.

Declare Scope py_scope.
Delimit Scope py_scope with py.
Notation "x <- m ;; k" := (bind m (fun x => k))
  (at level 61, m at next level, right associativity) : py_scope.
Notation "m ;; k" := (bind m (fun _ => k))
  (at level 61, right associativity) : py_scope.

Local Open Scope py_scope.

(** ** Strings *)

Definition nl : string := String (ascii_of_nat 10) EmptyString.

(** [sep.join(parts)] is [String.concat sep parts]. *)

(** [', '.join(labels)] where the items must be [str]. *)
Fixpoint str_items (labels : list value) : outcome (list string) :=
  match labels with
  | [] => Return []
  | VStr s :: rest =>
      match str_items rest with
      | Return ss => Return (s :: ss)
      | Raise e => Raise e
      end
  | _ :: _ => Raise (TypeError "sequence item: expected str instance")
  end.

Definition join_labels (sep : string) (labels : list value) : outcome string :=
  match str_items labels with
  | Return ss => Return (String.concat sep ss)
  | Raise e => Raise e
  end.

(** Occurrences of the placeholder [%s] in a statement text. *)
Definition starts_with_s (s : string) : bool :=
  match s with
  | String c _ => Ascii.eqb c "s"
  | EmptyString => false
  end.

Fixpoint count_placeholders (s : string) : nat :=
  match s with
  | EmptyString => 0
  | String c rest =>
      (if Ascii.eqb c "%" && starts_with_s rest then 1 else 0)
      + count_placeholders rest
  end.

Fixpoint no_percent (s : string) : bool :=
  match s with
  | EmptyString => true
  | String c rest => negb (Ascii.eqb c "%") && no_percent rest
  end.

(** The number of parameters bound by an [execute] call. *)
Definition bound_parameters (params : option value) : option nat :=
  match params with
  | None => Some 0
  | Some (VTuple items) => Some (length items)
  | Some _ => None
  end.

(** Truth value of a returned status ([None] and [0] are false). *)
Definition truthy (status : option Z) : bool :=
  match status with
  | Some z => negb (Z.eqb z 0)
  | None => false
  end.

(** [[row[0] for row in rows]] *)
Fixpoint first_items (rows : list (list value)) : outcome (list value) :=
  match rows with
  | [] => Return []
  | [] :: _ => Raise (IndexError "tuple index out of range")
  | (x :: _) :: rest =>
      match first_items rest with
      | Return xs => Return (x :: xs)
      | Raise e => Raise e
      end
  end.

(** ** The module *)

Section Module.
Context {D : Driver}.

(** [repr] is Python's builtin; its rendering of strings (quoting,
    escapes) and of Series is not defined by the module. *)
Variable py_repr : value -> string.

(** [str(v)], as used by f-string interpolation: a [str] is itself,
    every other object here prints as its [repr]. *)
Definition py_str (v : value) : string :=
  match v with
  | VStr s => s
  | _ => py_repr v
  end.

(** A call of another function of the module. *)
Definition call_fn {X R A} (f : World D -> World D * outcome A)
  : @M D X R A :=
  fun l w =>
    match f w with
    | (w', Return a) => (l, w', Next a)
    | (w', Raise e) => (l, w', Exc e)
    end.

(** *** Statement texts *)

Definition select_all_query (table_name : string) : string :=
  nl ++ "        SELECT *" ++ nl ++
  "        FROM " ++ table_name ++ nl ++
  "    ".

Definition insert_query (table_name columns placeholders : string) : string :=
  nl ++ "        INSERT INTO " ++ table_name ++ " (" ++ columns ++ ") " ++ nl ++
  "        VALUES (" ++ placeholders ++ ")" ++ nl ++
  "    ".

Definition describe_query (table_name : string) : string :=
  nl ++ "        DESCRIBE " ++ table_name ++ ";" ++ nl ++
  "    ".

Definition filter_literals (filter_list : list value) : string :=
  String.concat ", " (map (fun f => "'" ++ py_str f ++ "'") filter_list).

Definition select_in_query (table_name column_filter : string)
    (filter_list : list value) : string :=
  nl ++ "        SELECT *" ++ nl ++
  "        FROM " ++ table_name ++ nl ++
  "        WHERE " ++ column_filter ++ nl ++
  "        IN (" ++ filter_literals filter_list ++ ");" ++ nl ++
  "    ".

Definition equality_predicate (column : value) : string :=
  py_str column ++ " = %s".

Definition where_clause (column_filters : list value) : string :=
  String.concat " AND " (map equality_predicate column_filters).

Definition select_where_query (table_name : string) (column_filters : list value)
  : string :=
  nl ++ "        SELECT *" ++ nl ++
  "        FROM " ++ table_name ++ nl ++
  "        WHERE " ++ where_clause column_filters ++ ";" ++ nl ++
  "    ".

(** [zip(update_columns, update_values)] is [combine]: it stops at the
    shorter list. *)
Definition combined_set (update_columns update_values : list value) : list string :=
  map (fun cv => py_str (fst cv) ++ " = " ++ py_repr (snd cv))
      (combine update_columns update_values).

Definition set_clause (update_columns update_values : list value) : string :=
  String.concat ", " (combined_set update_columns update_values).

Definition update_query (table_name : string) (column_filters : list value)
    (update_columns update_values : list value) : string :=
  nl ++ "        UPDATE " ++ table_name ++ nl ++
  "        SET " ++ set_clause update_columns update_values ++ nl ++
  "        WHERE " ++ where_clause column_filters ++ ";" ++ nl ++
  "    ".

(** [if not isinstance(filter_values, tuple): filter_values = (filter_values, )] *)
Definition coerce_filter_values (filter_values : value) : value :=
  if is_tuple filter_values then filter_values else VTuple [filter_values].

(** *** Functions *)

Definition get_all_data_from_table (table_name : string)
  : World D -> World D * outcome (option DataFrame) :=
  let query := select_all_query table_name in
  call (X := DataFrame)
    (try_finally
       (try_except
          (h <- conn_cursor ;; set_cursor h ;;
           c <- get_cursor ;; cursor_execute c query None ;;
           c <- get_cursor ;; rows <- cursor_fetchall c ;;
           set_result (DataFrame_of_rows rows) ;;
           r <- get_result ;; return_ (Some r))
          (fun err => conn_rollback))
       (c <- get_cursor ;; cursor_close c)).

(** The body of the loop of [insert_into_table]: the inner [try] around
    one [execute]. *)
Definition insert_row {X R} (query : string) (value : value)
  : @M D X R unit :=
  try_except
    (c <- get_cursor ;; cursor_execute c query (Some value))
    (fun err => pure tt).

Definition insert_into_table (data_df : DataFrame) (table_name : string)
  : World D -> World D * outcome (option Z) :=
  call (X := unit)
    (column_list <- lift_outcome (join_labels ", " (columns data_df)) ;;
     let placeholders :=
       String.concat ", " (repeat "%s" (length (columns data_df))) in
     let query := insert_query table_name column_list placeholders in
     let values := map VTuple (values data_df) in
     try_finally
       (try_except
          (h <- conn_cursor ;; set_cursor h ;;
           for_each values (insert_row query) ;;
           conn_commit)
          (fun err => conn_rollback))
       (c <- get_cursor ;; cursor_close c) ;;
     return_ (Some 1%Z)).

Definition get_table_columns (table_name : string)
  : World D -> World D * outcome (option (list value)) :=
  let query := describe_query table_name in
  call (X := list value)
    (try_finally
       (try_except
          (h <- conn_cursor ;; set_cursor h ;;
           c <- get_cursor ;; cursor_execute c query None ;;
           c <- get_cursor ;; rows <- cursor_fetchall c ;;
           names <- lift_outcome (first_items rows) ;;
           set_result names)
          (fun err => conn_rollback))
       (c <- get_cursor ;; cursor_close c) ;;
     r <- get_result ;; return_ (Some r)).

(** [result.columns = col_names] where [col_names] is what
    [get_table_columns] returned ([None] is not a list of labels). *)
Definition label_result {R} (col_names : option (list value))
  : @M D DataFrame R unit :=
  result <- get_result ;;
  match col_names with
  | Some names => labelled <- lift_outcome (set_columns result names) ;;
                  set_result labelled
  | None => raise (TypeError "Index(...) must be called with a collection")
  end.

(** The part shared by the two filtered reads, after the statement has
    been rendered: lines 138-154 and 174-191 of the source are the same
    up to the arguments of [execute]. *)
Definition filtered_read (query : string) (params : option value)
    (table_name : string) : World D -> World D * outcome (option DataFrame) :=
  call (X := DataFrame)
    (try_finally
       (try_except
          (h <- conn_cursor ;; set_cursor h ;;
           c <- get_cursor ;; cursor_execute c query params ;;
           c <- get_cursor ;; rows <- cursor_fetchall c ;;
           set_result (DataFrame_of_rows rows) ;;
           result <- get_result ;;
           if negb (empty result)
           then col_names <- call_fn (get_table_columns table_name) ;;
                label_result col_names
           else result <- get_result ;; return_ (Some result))
          (fun err => conn_rollback))
       (c <- get_cursor ;; cursor_close c ;; conn_close) ;;
     result <- get_result ;; return_ (Some result)).

Definition get_all_with_filter (filter_list : list value)
    (table_name column_filter : string)
  : World D -> World D * outcome (option DataFrame) :=
  filtered_read (select_in_query table_name column_filter filter_list) None
                table_name.

Definition get_all_with_multiple_filters (column_filters : list value)
    (filter_values : value) (table_name : string)
  : World D -> World D * outcome (option DataFrame) :=
  filtered_read (select_where_query table_name column_filters)
                (Some filter_values) table_name.

Definition update_multiple_columns_by_multi_filter
    (column_filters : list value) (filter_values : value)
    (update_columns update_values : list value) (table_name : string)
  : World D -> World D * outcome (option Z) :=
  let filter_values := coerce_filter_values filter_values in
  let query := update_query table_name column_filters update_columns update_values in
  call (X := unit)
    (try_finally
       (try_except
          (h <- conn_cursor ;; set_cursor h ;;
           c <- get_cursor ;; cursor_execute c query (Some filter_values) ;;
           conn_commit)
          (fun err => conn_rollback))
       (c <- get_cursor ;; cursor_close c ;; conn_close) ;;
     return_ (Some 1%Z)).

(** The body of the loop of [update_rows_in_database]: one row is
    turned into one call of the multi-filter update. *)
Definition sync_row (df_columns : list value) (filter_col table_name : string)
    (row : Row) : @M D unit (option bool) unit :=
  key <- lift_outcome (row_getitem row filter_col) ;;
  update_status <-
    call_fn (update_multiple_columns_by_multi_filter
               [VStr filter_col] key df_columns (row_values row)
               table_name) ;;
  if negb (truthy update_status) then return_ (Some false)
  else pure tt.

Definition update_rows_in_database (new_df : DataFrame) (filter_col : string)
    (table_name : string) : World D -> World D * outcome (option bool) :=
  call (X := unit)
    (if empty new_df then return_ (Some false)
     else
       let df_columns := columns new_df in
       for_each (iterrows new_df) (sync_row df_columns filter_col table_name) ;;
       return_ (Some true)).
End Module.

(** ** Vocabulary of the properties *)

Section Properties.
Context {D : Driver}.
Variable py_repr : value -> string.

(** The connection never fails to hand out a cursor, to roll back, or
    to close: only [execute] and [commit] may raise. *)
Definition bookkeeping_never_raises : Prop :=
  (forall c, exists c' h, d_cursor D c = (c', DOk h)) /\
  (forall c, exists c', d_rollback D c = (c', DOk tt)) /\
  (forall h c, exists c', d_cursor_close D h c = (c', DOk tt)) /\
  (forall c, exists c', d_close D c = (c', DOk tt)).

(** The two filtered reads, with the statement and the parameters each
    hands to [execute]. *)
Inductive filtered_read_call
  : (World D -> World D * outcome (option DataFrame)) ->
    string -> option value -> string -> Prop :=
| read_in_filter filter_list table_name column_filter :
    filtered_read_call
      (get_all_with_filter py_repr filter_list table_name column_filter)
      (select_in_query py_repr table_name column_filter filter_list)
      None table_name
| read_equality_filter column_filters filter_values table_name :
    filtered_read_call
      (get_all_with_multiple_filters py_repr column_filters filter_values table_name)
      (select_where_query py_repr table_name column_filters)
      (Some filter_values) table_name.

(** The operations that close the connection they were lent, as
    transformers of the world. *)
Inductive closing_call : (World D -> World D) -> Prop :=
| closing_in_filter filter_list table_name column_filter :
    closing_call
      (fun w => fst (get_all_with_filter py_repr filter_list table_name
                                         column_filter w))
| closing_equality_filter column_filters filter_values table_name :
    closing_call
      (fun w => fst (get_all_with_multiple_filters py_repr column_filters
                                                   filter_values table_name w))
| closing_update column_filters filter_values update_columns update_values
                 table_name :
    closing_call
      (fun w => fst (update_multiple_columns_by_multi_filter
                       py_repr column_filters filter_values update_columns
                       update_values table_name w)).

(** The last two calls of a run are [cursor.close()] and [conn.close()],
    and the connection is left as [close()] left it. *)
Definition closed_on_exit (h : handle) (w w' : World D) : Prop :=
  exists evs c,
    w_trace w' = (w_trace w ++ evs ++ [EvCursorClose h; EvClose])%list /\
    w_conn w' = fst (d_close D c).

(** The connection after [execute] has been called on every row in
    turn, whatever each call answered. *)
Fixpoint execute_all (h : handle) (query : string) (rows : list value)
    (c : dstate D) : dstate D :=
  match rows with
  | [] => c
  | v :: rest => execute_all h query rest (fst (d_execute D h query (Some v) c))
  end.

Definition execute_events (h : handle) (query : string) (rows : list value)
  : list event :=
  map (fun v => EvExecute h query (Some v)) rows.

(** The statement of [insert_into_table]: one placeholder per column. *)
Definition insert_statement (table_name column_list : string) (width : nat)
  : string :=
  insert_query table_name column_list (String.concat ", " (repeat "%s" width)).

(** A text in which the placeholder marker [%s] does not occur; a column
    name and an inlined literal whose rendering is such a text. *)
Definition marker_free (text : string) : Prop := count_placeholders text = 0.
Definition marker_free_name (c : value) : Prop := marker_free (py_str py_repr c).
Definition marker_free_literal (v : value) : Prop := marker_free (py_repr v).

(** An [execute] event carries the given statement. *)
Definition executes (query : string) (params : option value) (e : event) : Prop :=
  match e with
  | EvExecute _ q p => q = query /\ p = params
  | _ => True
  end.

(** The statement the bulk update issues for a row of the frame. *)
Definition row_update (new_df : DataFrame) (filter_col table_name : string)
    (rows : list Row) (e : event) : Prop :=
  match e with
  | EvExecute _ q p =>
      exists row key,
        In row rows /\
        row_getitem row filter_col = Return key /\
        q = update_query py_repr table_name [VStr filter_col]
                         (columns new_df) (row_values row) /\
        p = Some (coerce_filter_values key)
  | _ => True
  end.
End Properties.

(** ** A test double for the client *)


Definition statement : Type := (string * option value)%type.

(** A scripted connection. [alive] is the liveness flag; [cursors] counts
    the cursors handed out; [last_query] is the statement whose rows
    [fetchall] returns; [pending] holds the statements accepted since the
    last commit or rollback, [committed] those made durable. *)
Record MockConn : Type := mkMockConn {
  alive : bool;
  cursors : nat;
  last_query : string;
  pending : list statement;
  committed : list statement
}.

Section Mock.
(** [pooled]: [close()] hands the session back and the handle stays
    usable; otherwise every later call on the connection raises. *)
Variable pooled : bool.
(** The statements the engine rejects. *)
Variable rejects : string -> option value -> bool.
(** The rows each statement yields. *)
Variable rows_of : string -> list (list value).

Definition usable (c : MockConn) : bool := pooled || alive c.

Definition not_available {A} (c : MockConn) : MockConn * dres A :=
  (c, DErr "MySQL Connection not available").

Definition mock : Driver :=
  {| dstate := MockConn;
     d_cursor := fun c =>
       if usable c
       then (mkMockConn (alive c) (S (cursors c)) (last_query c)
                        (pending c) (committed c), DOk (cursors c))
       else not_available c;
     d_execute := fun h query params c =>
       if usable c
       then if rejects query params
            then (c, DErr "statement rejected")
            else (mkMockConn (alive c) (cursors c) query
                             (pending c ++ [(query, params)]) (committed c),
                  DOk tt)
       else not_available c;
     d_fetchall := fun h c =>
       if usable c then (c, DOk (rows_of (last_query c))) else not_available c;
     d_commit := fun c =>
       if usable c
       then (mkMockConn (alive c) (cursors c) (last_query c)
                        [] (committed c ++ pending c), DOk tt)
       else not_available c;
     d_rollback := fun c =>
       if usable c
       then (mkMockConn (alive c) (cursors c) (last_query c)
                        [] (committed c), DOk tt)
       else not_available c;
     d_cursor_close := fun h c => (c, DOk tt);
     d_close := fun c =>
       (mkMockConn false (cursors c) (last_query c) [] (committed c), DOk tt) |}.
End Mock.

Definition fresh_conn : MockConn := mkMockConn true 0 EmptyString [] [].

Definition fresh_world (pooled : bool) (rejects : string -> option value -> bool)
    (rows_of : string -> list (list value)) : World (mock pooled rejects rows_of) :=
  mkWorld (D := mock pooled rejects rows_of) fresh_conn [].

(** A rendering of [repr] that agrees with Python on integers, on [None]
    and on strings of printable ASCII characters other than quotes and
    the backslash; used to run the module on concrete inputs. *)
Definition simple_repr (v : value) : string :=
  match v with
  | VInt z => NilZero.string_of_int (Z.to_int z)
  | VStr s => "'" ++ s ++ "'"
  | VNone => "None"
  | VTuple _ => "(...)"
  | VSeries _ => "Series(...)"
  end.

(** ** Sample data *)

Definition id_name : list value := [VStr "id"; VStr "name"].

Definition three_rows : DataFrame :=
  mkDataFrame id_name
    [[VInt 1; VStr "a"]; [VInt 2; VStr "b"]; [VInt 3; VStr "c"]].

Definition one_row : DataFrame :=
  mkDataFrame id_name [[VInt 2; VStr "b"]].

(** An engine that rejects the statements whose first parameter is the
    integer [k] (a row violating a constraint). *)
Definition rejects_id (k : Z) (query : string) (params : option value) : bool :=
  match params with
  | Some (VTuple (VInt z :: _)) => Z.eqb z k
  | _ => false
  end.

Definition accepts_all (query : string) (params : option value) : bool := false.

Definition rejects_all (query : string) (params : option value) : bool := true.

(** A client that refuses parameters that are not a sequence. *)
Definition rejects_bare_scalar (query : string) (params : option value) : bool :=
  match params with
  | None => false
  | Some (VTuple _) => false
  | Some _ => true
  end.

Definition no_rows (query : string) : list (list value) := [].

(** A table [t (id int, name text)] holding the row [(3, 'c')]. *)
Definition table_t (query : string) : list (list value) :=
  if String.eqb query (describe_query "t")
  then [[VStr "id"; VStr "int"]; [VStr "name"; VStr "text"]]
  else [[VInt 3; VStr "c"]].

(** The UpdateSpec in the words of the specification: the pairs of the
    row other than the filter column. *)
Definition other_pairs (row : Row) (filter_col : string) : Row :=
  filter (fun p => negb (label_is filter_col (fst p))) row.

(** The statement the bulk update renders for the row [(k, name)] of a
    frame with columns [id], [name], filtered on [id]. *)
Definition update_of_row (k : Z) (name : string) : statement :=
  (update_query simple_repr "t" [VStr "id"] id_name [VInt k; VStr name],
   Some (VTuple [VInt k])).

Arguments update_query : simpl never.
Arguments select_where_query : simpl never.
Arguments select_in_query : simpl never.
Arguments select_all_query : simpl never.
Arguments describe_query : simpl never.
Arguments insert_query : simpl never.
Arguments coerce_filter_values : simpl never.
Arguments empty : simpl never.
Arguments DataFrame_of_rows : simpl never.
Arguments set_columns : simpl never.
Arguments first_items : simpl never.

(** ** Vocabulary of the further properties *)

Definition is_close (e : event) : bool :=
  match e with
  | EvClose => true
  | _ => false
  end.

Definition is_str (v : value) : bool :=
  match v with
  | VStr _ => true
  | _ => false
  end.

(** The statements of the [execute] calls of a trace, in order. *)
Fixpoint statements_of (evs : list event) : list statement :=
  match evs with
  | [] => []
  | EvExecute _ q p :: rest => (q, p) :: statements_of rest
  | _ :: rest => statements_of rest
  end.

(** The exception a call ended in, if any. *)
Definition raised {R} (o : outcome R) : option exn :=
  match o with
  | Return _ => None
  | Raise e => Some e
  end.

Section FurtherProperties.
Context {D : Driver}.
Variable py_repr : value -> string.

(** A call with its returned value forgotten. *)
Definition forget {R} (f : World D -> World D * outcome R) (w : World D)
  : World D * option exn :=
  (fst (f w), raised (snd (f w))).

(** The functions of the module that take a cursor inside
    [try ... finally]; [insert_into_table] gets there once the column
    labels have been joined. *)
Inductive cursor_call : (World D -> World D * option exn) -> Prop :=
| cursor_select_all table_name :
    cursor_call (forget (get_all_data_from_table table_name))
| cursor_insert data_df table_name column_list :
    join_labels ", " (columns data_df) = Return column_list ->
    cursor_call (forget (insert_into_table data_df table_name))
| cursor_describe table_name :
    cursor_call (forget (get_table_columns table_name))
| cursor_in_filter filter_list table_name column_filter :
    cursor_call
      (forget (get_all_with_filter py_repr filter_list table_name column_filter))
| cursor_equality_filter column_filters filter_values table_name :
    cursor_call
      (forget (get_all_with_multiple_filters py_repr column_filters
                                             filter_values table_name))
| cursor_update column_filters filter_values update_columns update_values
                table_name :
    cursor_call
      (forget (update_multiple_columns_by_multi_filter
                 py_repr column_filters filter_values update_columns
                 update_values table_name)).

(** The functions whose [finally] releases the cursor only. *)
Inductive keeping_call : (World D -> World D) -> Prop :=
| keeping_select_all table_name :
    keeping_call (fun w => fst (get_all_data_from_table table_name w))
| keeping_insert data_df table_name :
    keeping_call (fun w => fst (insert_into_table data_df table_name w))
| keeping_describe table_name :
    keeping_call (fun w => fst (get_table_columns table_name w)).

(** A connection on which [cursor()] raises once [close()] has been
    called. *)
Definition dead_after_close : Prop :=
  forall c, exists c' msg, d_cursor D (fst (d_close D c)) = (c', DErr msg).

(** The statement of the bulk update for a row. *)
Definition statement_of_row (new_df : DataFrame) (filter_col table_name : string)
    (row : Row) (st : statement) : Prop :=
  exists key,
    row_getitem row filter_col = Return key /\
    st = (update_query py_repr table_name [VStr filter_col]
                       (columns new_df) (row_values row),
          Some (coerce_filter_values key)).
End FurtherProperties.

(** A frame of two rows, the second of which the engine rejects. *)
Definition two_rows : DataFrame :=
  mkDataFrame id_name [[VInt 1; VStr "a"]; [VInt 2; VStr "b"]].

(** A frame whose second label is a position, not a name. *)
Definition unnamed_column : DataFrame :=
  mkDataFrame [VStr "id"; VInt 1] [[VInt 1; VStr "a"]].

(** An engine that fails every [commit]: the statements are accepted,
    making them durable is not. *)
Definition failing_commit (rejects : string -> option value -> bool) : Driver :=
  let base := mock true rejects no_rows in
  {| dstate := MockConn;
     d_cursor := d_cursor base;
     d_execute := d_execute base;
     d_fetchall := d_fetchall base;
     d_commit := fun c => (c, DErr "commit failed");
     d_rollback := d_rollback base;
     d_cursor_close := d_cursor_close base;
     d_close := d_close base |}.

(** A connection on which releasing the second cursor raises. *)
Definition failing_inner_close (rows_of : string -> list (list value)) : Driver :=
  let base := mock false accepts_all rows_of in
  {| dstate := MockConn;
     d_cursor := d_cursor base;
     d_execute := d_execute base;
     d_fetchall := d_fetchall base;
     d_commit := d_commit base;
     d_rollback := d_rollback base;
     d_cursor_close := fun h c =>
       if Nat.eqb h 1 then (c, DErr "unread result found") else (c, DOk tt);
     d_close := d_close base |}.

(** A live connection that refuses to hand out a cursor (an unread
    result is pending). *)
Definition busy_cursor : Driver :=
  let base := mock false accepts_all no_rows in
  {| dstate := MockConn;
     d_cursor := fun c => (c, DErr "Unread result found");
     d_execute := d_execute base;
     d_fetchall := d_fetchall base;
     d_commit := d_commit base;
     d_rollback := d_rollback base;
     d_cursor_close := d_cursor_close base;
     d_close := d_close base |}.

(** A connection on which releasing a cursor raises. *)
Definition failing_cursor_close : Driver :=
  let base := mock false accepts_all no_rows in
  {| dstate := MockConn;
     d_cursor := d_cursor base;
     d_execute := d_execute base;
     d_fetchall := d_fetchall base;
     d_commit := d_commit base;
     d_rollback := d_rollback base;
     d_cursor_close := fun h c => (c, DErr "Unread result found");
     d_close := d_close base |}.

(** A schema answer of the wrong width for [table_t]'s row. *)
Definition table_one_name (query : string) : list (list value) :=
  if String.eqb query (describe_query "t")
  then [[VStr "id"; VStr "int"]]
  else [[VInt 3; VStr "c"]].

(** ** Proof support *)

Ltac unfold_py :=
  unfold call, try_finally, try_except, bind, pure, return_, raise,
    lift_outcome, get_cursor, set_cursor, get_result, set_result,
    conn_cursor, cursor_execute, cursor_fetchall, conn_commit,
    conn_rollback, cursor_close, conn_close, client_call, call_fn,
    no_locals; simpl.

(** Case analysis on the next client call in the goal. *)
Ltac case_client :=
  match goal with
  | |- context [match ?x with pair _ _ => _ end] =>
      lazymatch type of x with
      | (dstate _ * dres _)%type =>
          let c := fresh "c" in
          let r := fresh "r" in
          let m := fresh "msg" in
          let E := fresh "E" in
          destruct x as [c [r | m]] eqn:E; simpl
      end
  end.

(** Equalities between runs that differ in how the trace is bracketed. *)
Ltac trace_eq := rewrite <- ?app_assoc; simpl; reflexivity.

Lemma app_assoc_cons {A} (l m : list A) (x : A) :
  ((l ++ [x]) ++ m = l ++ x :: m)%list.
Proof. now rewrite <- app_assoc. Qed.

(** ** Schema introspection *)

Section Introspection.
Context {D : Driver}.

(** C9. When the [DESCRIBE] statement is rejected by the engine,
    [get_table_columns] does not hand a failure value back: the handler
    rolls back, the cursor is released, and the final [return result]
    reads a local that was never bound, so the call ends in an
    exception whatever [rollback] and [close] do. When both of them
    return, that exception is [UnboundLocalError]. *)
Theorem get_table_columns_describe_error_raises
    (table_name : string) (w : World D) c1 h c2 msg :
  d_cursor D (w_conn w) = (c1, DOk h) ->
  d_execute D h (describe_query table_name) None c1 = (c2, DErr msg) ->
  is_return (snd (get_table_columns table_name w)) = false /\
  (forall c3 c4,
      d_rollback D c2 = (c3, DOk tt) ->
      d_cursor_close D h c3 = (c4, DOk tt) ->
      get_table_columns table_name w =
      (mkWorld c4 (w_trace w ++ [EvCursor;
                                 EvExecute h (describe_query table_name) None;
                                 EvRollback; EvCursorClose h])%list,
       Raise (UnboundLocalError "result"))).
Proof.
  intros Hcur Hexe. unfold get_table_columns. unfold_py.
  rewrite Hcur. simpl. rewrite Hexe. simpl. split.
  - repeat case_client; reflexivity.
  - intros c3 c4 Hrb Hcc. rewrite Hrb. simpl. rewrite Hcc. simpl.
    now rewrite !app_assoc_cons.
Qed.
End Introspection.

(** ** The multi-filter update and the bulk update *)

Section Update.
Context {D : Driver}.
Variable py_repr : value -> string.

Local Abbreviation update := (update_multiple_columns_by_multi_filter (D := D) py_repr).
Local Abbreviation update_rows := (update_rows_in_database (D := D) py_repr).

(** The status handed back by the update is [1] whenever it hands one
    back. *)
Lemma update_status_is_one cf fv uc uv t (w : World D) :
  match snd (update cf fv uc uv t w) with
  | Return r => r = Some 1%Z
  | Raise _ => True
  end.
Proof.
  unfold update_multiple_columns_by_multi_filter. unfold_py.
  repeat case_client; auto.
Qed.

(** The run of the update when the statement is rejected. *)
Lemma update_rejected_run cf fv uc uv t (w : World D) c1 h c2 msg c3 c4 c5 :
  d_cursor D (w_conn w) = (c1, DOk h) ->
  d_execute D h (update_query py_repr t cf uc uv)
            (Some (coerce_filter_values fv)) c1 = (c2, DErr msg) ->
  d_rollback D c2 = (c3, DOk tt) ->
  d_cursor_close D h c3 = (c4, DOk tt) ->
  d_close D c4 = (c5, DOk tt) ->
  update cf fv uc uv t w =
  (mkWorld c5
     (w_trace w ++
      [EvCursor;
       EvExecute h (update_query py_repr t cf uc uv)
                 (Some (coerce_filter_values fv));
       EvRollback; EvCursorClose h; EvClose])%list,
   Return (Some 1%Z)).
Proof.
  intros H1 H2 H3 H4 H5.
  unfold update_multiple_columns_by_multi_filter. unfold_py.
  rewrite H1; simpl. rewrite H2; simpl. rewrite H3; simpl.
  rewrite H4; simpl. rewrite H5; simpl.
  now rewrite !app_assoc_cons.
Qed.

(** The run of the update when the statement is accepted and committed. *)
Lemma update_accepted_run cf fv uc uv t (w : World D) c1 h c2 c3 c4 c5 :
  d_cursor D (w_conn w) = (c1, DOk h) ->
  d_execute D h (update_query py_repr t cf uc uv)
            (Some (coerce_filter_values fv)) c1 = (c2, DOk tt) ->
  d_commit D c2 = (c3, DOk tt) ->
  d_cursor_close D h c3 = (c4, DOk tt) ->
  d_close D c4 = (c5, DOk tt) ->
  update cf fv uc uv t w =
  (mkWorld c5
     (w_trace w ++
      [EvCursor;
       EvExecute h (update_query py_repr t cf uc uv)
                 (Some (coerce_filter_values fv));
       EvCommit; EvCursorClose h; EvClose])%list,
   Return (Some 1%Z)).
Proof.
  intros H1 H2 H3 H4 H5.
  unfold update_multiple_columns_by_multi_filter. unfold_py.
  rewrite H1; simpl. rewrite H2; simpl. rewrite H3; simpl.
  rewrite H4; simpl. rewrite H5; simpl.
  now rewrite !app_assoc_cons.
Qed.

Lemma update_returns_one cf fv uc uv t (w : World D) :
  bookkeeping_never_raises (D := D) ->
  exists w', update cf fv uc uv t w = (w', Return (Some 1%Z)).
Proof.
  intros (Hcur & Hrb & Hcc & Hcl).
  unfold update_multiple_columns_by_multi_filter. unfold_py.
  destruct (Hcur (w_conn w)) as (c1 & h & ->); simpl.
  case_client.
  - case_client.
    + destruct (Hcc h c0) as (c3 & ->); simpl.
      destruct (Hcl c3) as (c4 & ->); simpl. eauto.
    + destruct (Hrb c0) as (c3 & ->); simpl.
      destruct (Hcc h c3) as (c4 & ->); simpl.
      destruct (Hcl c4) as (c5 & ->); simpl. eauto.
  - destruct (Hrb c) as (c3 & ->); simpl.
    destruct (Hcc h c3) as (c4 & ->); simpl.
    destruct (Hcl c4) as (c5 & ->); simpl. eauto.
Qed.

Lemma update_rows_unfold new_df filter_col table_name (w : World D) :
  update_rows new_df filter_col table_name w =
  call (X := unit)
    (if empty new_df then return_ (Some false)
     else (for_each (iterrows new_df)
                    (sync_row py_repr (columns new_df) filter_col table_name) ;;
           return_ (Some true))%py) w.
Proof. reflexivity. Qed.

(** The loop never ends in a [return]: the test on the status never
    fires. *)
Lemma sync_loop_never_returns cols filter_col table_name rows l (w : World D) :
  match for_each rows (sync_row py_repr cols filter_col table_name) l w with
  | (_, _, Ret _) => False
  | _ => True
  end.
Proof.
  revert l w. induction rows as [| row rows IH]; intros l w; simpl.
  - exact I.
  - unfold bind at 1. unfold sync_row at 1. unfold bind, lift_outcome, call_fn.
    destruct (row_getitem row filter_col) as [key | e]; simpl; [| exact I].
    pose proof (update_status_is_one [VStr filter_col] key cols
                  (row_values row) table_name w) as Hone.
    destruct (update _ _ _ _ _ w) as [w' [r | e]]; simpl in *; [| exact I].
    subst r. simpl. apply IH.
Qed.

Lemma sync_loop_completes cols filter_col table_name rows l (w : World D) :
  bookkeeping_never_raises (D := D) ->
  Forall (fun row => is_return (row_getitem row filter_col) = true) rows ->
  exists w', for_each rows (sync_row py_repr cols filter_col table_name) l w
             = (l, w', Next tt).
Proof.
  intros Hok Hkeys. revert w.
  induction Hkeys as [| row rows Hkey _ IH]; intros w; simpl.
  - unfold pure. eauto.
  - unfold bind at 1. unfold sync_row at 1. unfold bind, lift_outcome, call_fn.
    destruct (row_getitem row filter_col) as [key | e]; simpl in *;
      [| discriminate].
    destruct (update_returns_one [VStr filter_col] key cols
                (row_values row) table_name w Hok) as (w' & ->).
    simpl. apply IH.
Qed.
End Update.

(** ** Filtered reads *)

Section Reads.
Context {D : Driver}.
Variable py_repr : value -> string.

Lemma filtered_read_call_unfold read query params table_name :
  filtered_read_call (D := D) py_repr read query params table_name ->
  read = filtered_read query params table_name.
Proof. intros []; reflexivity. Qed.

(** Calls only add to the trace. *)
Lemma get_table_columns_extends_trace table_name (w : World D) :
  exists evs, w_trace (fst (get_table_columns table_name w))
              = (w_trace w ++ evs)%list.
Proof.
  unfold get_table_columns. unfold_py.
  repeat (case_client ||
          match goal with
          | |- context [first_items ?r] =>
              let e := fresh "e" in
              destruct (first_items r) as [? | e]; [| destruct e]; simpl
          end);
    rewrite <- ?app_assoc; eexists; reflexivity.
Qed.

End Reads.

(** ** Closing the borrowed connection *)

Section Closing.
Context {D : Driver}.
Variable py_repr : value -> string.

Lemma closed_on_exit_intro h (w : World D) t c c' r :
  (exists evs, t = (w_trace w ++ evs)%list) ->
  d_close D c = (c', r) ->
  closed_on_exit h w (mkWorld c' ((t ++ [EvCursorClose h]) ++ [EvClose])%list).
Proof.
  intros [evs ->] Hcl. exists evs, c. simpl. split.
  - now rewrite <- !app_assoc.
  - now rewrite Hcl.
Qed.

Ltac finish_closed :=
  simpl; eapply closed_on_exit_intro;
  [ rewrite <- ?app_assoc; eexists; reflexivity | eassumption ].

Ltac close_cursor Hcc :=
  match goal with
  | |- context [d_cursor_close D ?h ?c] =>
      let c' := fresh "c" in
      destruct (Hcc c) as (c' & ->); simpl
  end.

Ltac to_close Hcc :=
  first [ close_cursor Hcc | case_client; close_cursor Hcc ].

Lemma filtered_read_closes query params table_name (w : World D) c1 h :
  d_cursor D (w_conn w) = (c1, DOk h) ->
  (forall c, exists c', d_cursor_close D h c = (c', DOk tt)) ->
  closed_on_exit h w (fst (filtered_read query params table_name w)).
Proof.
  intros Hcur Hcc. unfold filtered_read. unfold_py.
  rewrite Hcur; simpl.
  case_client; [case_client |].
  - destruct (empty (DataFrame_of_rows r0)); simpl.
    + close_cursor Hcc. case_client; finish_closed.
    + match goal with
      | |- context [get_table_columns table_name ?w3] =>
          destruct (get_table_columns_extends_trace table_name w3)
            as [evs Hevs];
          destruct (get_table_columns table_name w3) as [w4 [names | e]]
      end; simpl in *.
      * unfold label_result. unfold_py.
        destruct names as [names |]; simpl.
        -- destruct (set_columns (DataFrame_of_rows r0) names) as [df | e];
             simpl; [| destruct e; simpl];
             to_close Hcc; case_client; rewrite Hevs; finish_closed.
        -- close_cursor Hcc. case_client; rewrite Hevs; finish_closed.
      * destruct e; simpl; to_close Hcc; case_client;
          rewrite Hevs; finish_closed.
  - to_close Hcc; case_client; finish_closed.
  - to_close Hcc; case_client; finish_closed.
Qed.

Lemma update_closes cf fv uc uv t (w : World D) c1 h :
  d_cursor D (w_conn w) = (c1, DOk h) ->
  (forall c, exists c', d_cursor_close D h c = (c', DOk tt)) ->
  closed_on_exit h w
    (fst (update_multiple_columns_by_multi_filter py_repr cf fv uc uv t w)).
Proof.
  intros Hcur Hcc. unfold update_multiple_columns_by_multi_filter. unfold_py.
  rewrite Hcur; simpl.
  case_client; [case_client |]; to_close Hcc; case_client; finish_closed.
Qed.
End Closing.

(** ** The status of updates *)

Section UpdateStatus.
Context {D : Driver}.
Variable py_repr : value -> string.

(** C3, as the code has it. [update_multiple_columns_by_multi_filter]
    hands back [1] on every path that hands anything back; in particular
    it does so when the statement is rejected and the transaction rolled
    back. Consequently [update_rows_in_database] never answers [False]
    for a non-empty frame, and answers [True] whenever the rows carry the
    filter column and the connection's bookkeeping calls return,
    whatever [execute] and [commit] did for the individual rows. *)
Theorem update_reports_success_on_every_path :
  (forall cf fv uc uv t (w : World D),
      match snd (update_multiple_columns_by_multi_filter py_repr cf fv uc uv t w)
      with
      | Return r => r = Some 1%Z
      | Raise _ => True
      end) /\
  (forall cf fv uc uv t (w : World D) c1 h c2 msg c3 c4 c5,
      d_cursor D (w_conn w) = (c1, DOk h) ->
      d_execute D h (update_query py_repr t cf uc uv)
                (Some (coerce_filter_values fv)) c1 = (c2, DErr msg) ->
      d_rollback D c2 = (c3, DOk tt) ->
      d_cursor_close D h c3 = (c4, DOk tt) ->
      d_close D c4 = (c5, DOk tt) ->
      update_multiple_columns_by_multi_filter py_repr cf fv uc uv t w =
      (mkWorld c5
         (w_trace w ++
          [EvCursor;
           EvExecute h (update_query py_repr t cf uc uv)
                     (Some (coerce_filter_values fv));
           EvRollback; EvCursorClose h; EvClose])%list,
       Return (Some 1%Z))) /\
  (forall new_df filter_col table_name (w : World D),
      empty new_df = false ->
      match snd (update_rows_in_database py_repr new_df filter_col table_name w)
      with
      | Return r => r = Some true
      | Raise _ => True
      end) /\
  (forall new_df filter_col table_name (w : World D),
      empty new_df = false ->
      bookkeeping_never_raises (D := D) ->
      Forall (fun row => is_return (row_getitem row filter_col) = true)
             (iterrows new_df) ->
      exists w',
        update_rows_in_database py_repr new_df filter_col table_name w
        = (w', Return (Some true))).
Proof.
  split; [| split; [| split]].
  - apply update_status_is_one.
  - apply update_rejected_run.
  - intros new_df filter_col table_name w Hne.
    rewrite update_rows_unfold, Hne. unfold call, bind.
    pose proof (sync_loop_never_returns py_repr (columns new_df) filter_col
                  table_name (iterrows new_df) no_locals w) as Hloop.
    destruct (for_each _ _ _ _) as [[l' w'] [[] | r | e]]; simpl;
      [reflexivity | contradiction | exact I].
  - intros new_df filter_col table_name w Hne Hok Hkeys.
    rewrite update_rows_unfold, Hne. unfold call, bind.
    destruct (sync_loop_completes py_repr (columns new_df) filter_col
                table_name (iterrows new_df) no_locals w Hok Hkeys)
      as (w' & ->).
    simpl. eauto.
Qed.
End UpdateStatus.

(** ** Bulk insert *)

Section Insert.
Context {D : Driver}.

Lemma insert_loop_runs_every_row h query (rows : list value) X R
      (l : Locals X) (w : World D) :
  l_cursor l = Some h ->
  for_each (R := R) rows (insert_row query) l w
  = (l, mkWorld (execute_all h query rows (w_conn w))
                (w_trace w ++ execute_events h query rows)%list,
     Next tt).
Proof.
  intros Hl. revert w. induction rows as [| v rows IH]; intros w; simpl.
  - unfold pure. rewrite app_nil_r. now destruct w.
  - unfold bind at 1. unfold insert_row at 1. unfold_py. rewrite Hl.
    destruct (d_execute D h query (Some v) (w_conn w)) as [c [[] | msg]];
      simpl; rewrite IH; simpl; now rewrite <- app_assoc.
Qed.

(** C6. [insert_into_table] calls [execute] once for every row of the
    frame, in order, whatever the earlier rows answered, and then calls
    [commit] once: no [execute] and no second [commit] follows. When
    that commit and the release of the cursor return, the call returns
    [1], its only status. *)
Theorem insert_is_best_effort data_df table_name (w : World D)
        column_list c1 h :
  join_labels ", " (columns data_df) = Return column_list ->
  d_cursor D (w_conn w) = (c1, DOk h) ->
  let query :=
    insert_statement table_name column_list (length (columns data_df)) in
  let rows := map VTuple (values data_df) in
  (exists tail,
      w_trace (fst (insert_into_table data_df table_name w))
      = (w_trace w ++ EvCursor :: execute_events h query rows
                  ++ EvCommit :: tail)%list /\
      forallb (fun e => negb (is_execute e || is_commit e)) tail = true) /\
  (forall c2 c3,
      d_commit D (execute_all h query rows c1) = (c2, DOk tt) ->
      d_cursor_close D h c2 = (c3, DOk tt) ->
      insert_into_table data_df table_name w =
      (mkWorld c3 (w_trace w ++ EvCursor :: execute_events h query rows
                           ++ [EvCommit; EvCursorClose h])%list,
       Return (Some 1%Z))).
Proof.
  intros Hjoin Hcur query rows.
  subst query rows. unfold insert_statement.
  unfold insert_into_table. rewrite Hjoin.
  unfold_py. rewrite Hcur; simpl.
  rewrite insert_loop_runs_every_row with (h := h) by reflexivity.
  simpl. split.
  - repeat case_client;
      (eexists; split; [rewrite <- ?app_assoc; simpl; reflexivity |
                        reflexivity]).
  - intros c2 c3 Hcommit Hcc. rewrite Hcommit; simpl. rewrite Hcc; simpl.
    rewrite <- ?app_assoc. reflexivity.
Qed.
End Insert.

(** ** Placeholders *)

Lemma append_assoc (a b c : string) : (a ++ b) ++ c = a ++ (b ++ c).
Proof. induction a as [| x a IH]; simpl; [reflexivity | now rewrite IH]. Qed.

(** Text without [%] carries no placeholder and cannot complete one. *)
Lemma count_placeholders_clean_app (a b : string) :
  no_percent a = true ->
  count_placeholders (a ++ b) = count_placeholders b.
Proof.
  induction a as [| x a IH]; simpl; [reflexivity |].
  intros H. apply andb_true_iff in H as [Hx Ha].
  apply negb_true_iff in Hx. rewrite Hx. simpl. now apply IH.
Qed.

(** Text without the marker adds no placeholder in front of a text that
    does not start with [s]. *)
Lemma count_placeholders_free_app (a b : string) :
  count_placeholders a = 0 ->
  starts_with_s b = false ->
  count_placeholders (a ++ b) = count_placeholders b.
Proof.
  intros Ha Hb. induction a as [| x a IH]; [reflexivity |].
  simpl in Ha. apply Nat.eq_add_0 in Ha as [Hx Ha].
  simpl. rewrite (IH Ha).
  destruct a as [| y a]; simpl in *.
  - now rewrite Hb, andb_false_r.
  - now rewrite Hx.
Qed.

Lemma count_placeholders_join (sep : string) (parts : list string) (rest : string) :
  (forall x, starts_with_s (sep ++ x) = false) ->
  (forall x, count_placeholders (sep ++ x) = count_placeholders x) ->
  Forall (fun p => forall b, starts_with_s b = false ->
                             count_placeholders (p ++ b) = count_placeholders b)
         parts ->
  starts_with_s rest = false ->
  count_placeholders (String.concat sep parts ++ rest) = count_placeholders rest.
Proof.
  intros Hsep Hcount Hparts Hrest.
  induction Hparts as [| p parts Hp _ IH]; [reflexivity |].
  destruct parts as [| q parts]; [now apply Hp |].
  change (String.concat sep (p :: q :: parts))
    with (p ++ sep ++ String.concat sep (q :: parts)).
  rewrite !append_assoc, Hp by apply Hsep.
  rewrite Hcount. exact IH.
Qed.

Lemma count_placeholders_markers (n : nat) (rest : string) :
  count_placeholders (String.concat ", " (repeat "%s" n) ++ rest)
  = n + count_placeholders rest.
Proof.
  induction n as [| n IH]; [reflexivity |].
  destruct n as [| n].
  - reflexivity.
  - change (String.concat ", " (repeat "%s" (S (S n))))
      with ("%s" ++ ", " ++ String.concat ", " (repeat "%s" (S n))).
    rewrite !append_assoc. simpl append. simpl count_placeholders at 1.
    simpl. f_equal. exact IH.
Qed.

Section Placeholders.
Variable py_repr : value -> string.

Lemma count_placeholders_where (column_filters : list value) (rest : string) :
  Forall (marker_free_name py_repr) column_filters ->
  count_placeholders (where_clause py_repr column_filters ++ rest)
  = length column_filters + count_placeholders rest.
Proof.
  intros Hfree. induction Hfree as [| c cols Hc Hrest IH]; [reflexivity |].
  destruct cols as [| c' cols].
  - unfold where_clause, equality_predicate. simpl String.concat.
    rewrite append_assoc, count_placeholders_free_app
      by (exact Hc || reflexivity).
    reflexivity.
  - change (where_clause py_repr (c :: c' :: cols))
      with (equality_predicate py_repr c ++ " AND " ++
            where_clause py_repr (c' :: cols)).
    unfold equality_predicate at 1.
    rewrite !append_assoc, count_placeholders_free_app
      by (exact Hc || reflexivity).
    simpl append. simpl count_placeholders at 1.
    rewrite IH. reflexivity.
Qed.

Lemma count_placeholders_set_clause (update_columns update_values : list value)
      (rest : string) :
  Forall (marker_free_name py_repr) update_columns ->
  Forall (marker_free_literal py_repr) update_values ->
  starts_with_s rest = false ->
  count_placeholders (set_clause py_repr update_columns update_values ++ rest)
  = count_placeholders rest.
Proof.
  intros Hc Hv Hrest. unfold set_clause.
  apply count_placeholders_join; try (intros; reflexivity); [| exact Hrest].
  unfold combined_set. apply Forall_map.
  revert update_values Hv.
  induction Hc as [| c cols Hcn _ IH]; intros vals Hv; simpl; [constructor |].
  destruct Hv as [| v vals Hvl Hvs]; constructor.
  - intros b Hb. simpl fst. simpl snd.
    rewrite !append_assoc, count_placeholders_free_app
      by (exact Hcn || reflexivity).
    simpl append. simpl count_placeholders at 1.
    now apply count_placeholders_free_app.
  - now apply IH.
Qed.

Lemma count_placeholders_filter_literals (filter_list : list value)
      (rest : string) :
  Forall (marker_free_name py_repr) filter_list ->
  starts_with_s rest = false ->
  count_placeholders (filter_literals py_repr filter_list ++ rest)
  = count_placeholders rest.
Proof.
  intros Hf Hrest. unfold filter_literals.
  apply count_placeholders_join; try (intros; reflexivity); [| exact Hrest].
  apply Forall_map.
  induction Hf as [| v vs Hv _ IH]; constructor; [| exact IH].
  intros b Hb. simpl append. simpl count_placeholders at 1.
  rewrite append_assoc, count_placeholders_free_app
    by (exact Hv || reflexivity).
  simpl append. simpl count_placeholders at 1. reflexivity.
Qed.

Ltac skip_text :=
  repeat first
    [ rewrite count_placeholders_clean_app by reflexivity
    | rewrite count_placeholders_free_app by (assumption || reflexivity) ].

(** C7, as the code has it. For a table name, column names and inlined
    literals in whose text the marker [%s] does not occur: the select-all
    and the IN-filter statements carry no placeholder and are run
    without parameters; the insert statement carries one placeholder per
    column, as many as a row of that width binds; the equality select and
    the update carry one placeholder per filter column, as many as the
    filter values bind when there are as many values as filter columns.
    The WHERE clause of the equality builders is the [" AND "]-join of
    one [c = %s] predicate per filter column, in the order of the
    columns. *)
Theorem placeholders_match_bound_parameters (table_name : string) :
  marker_free table_name ->
  bound_parameters None
  = Some (count_placeholders (select_all_query table_name)) /\
  (forall column_filter filter_list,
      marker_free column_filter ->
      Forall (marker_free_name py_repr) filter_list ->
      bound_parameters None
      = Some (count_placeholders
                (select_in_query py_repr table_name column_filter filter_list))) /\
  (forall column_list row,
      marker_free column_list ->
      bound_parameters (Some (VTuple row))
      = Some (count_placeholders
                (insert_statement table_name column_list (length row)))) /\
  (forall column_filters filter_values,
      Forall (marker_free_name py_repr) column_filters ->
      bound_parameters (Some filter_values) = Some (length column_filters) ->
      bound_parameters (Some filter_values)
      = Some (count_placeholders
                (select_where_query py_repr table_name column_filters))) /\
  (forall column_filters filter_values update_columns update_values,
      Forall (marker_free_name py_repr) column_filters ->
      Forall (marker_free_name py_repr) update_columns ->
      Forall (marker_free_literal py_repr) update_values ->
      bound_parameters (Some (coerce_filter_values filter_values))
      = Some (length column_filters) ->
      bound_parameters (Some (coerce_filter_values filter_values))
      = Some (count_placeholders
                (update_query py_repr table_name column_filters
                              update_columns update_values))) /\
  (forall column_filters,
      exists predicates,
        where_clause py_repr column_filters = String.concat " AND " predicates /\
        length predicates = length column_filters /\
        forall i c,
          nth_error column_filters i = Some c ->
          nth_error predicates i = Some (py_str py_repr c ++ " = %s")).
Proof.
  unfold marker_free. intros Ht.
  split; [| split; [| split; [| split; [| split]]]].
  - unfold select_all_query. skip_text. reflexivity.
  - intros column_filter filter_list Hc Hf. unfold select_in_query.
    skip_text.
    rewrite count_placeholders_filter_literals by (assumption || reflexivity).
    reflexivity.
  - intros column_list row Hc. unfold insert_statement, insert_query.
    skip_text. rewrite count_placeholders_markers. simpl.
    now rewrite Nat.add_0_r.
  - intros cf fv Hcf Hlen. rewrite Hlen. unfold select_where_query.
    skip_text. rewrite count_placeholders_where by exact Hcf.
    simpl. now rewrite Nat.add_0_r.
  - intros cf fv uc uv Hcf Huc Huv Hlen. rewrite Hlen. unfold update_query.
    skip_text.
    rewrite count_placeholders_set_clause by (assumption || reflexivity).
    skip_text. rewrite count_placeholders_where by exact Hcf.
    simpl. now rewrite Nat.add_0_r.
  - intros column_filters.
    exists (map (equality_predicate py_repr) column_filters). split; [| split].
    + reflexivity.
    + apply length_map.
    + intros i c Hi. rewrite nth_error_map, Hi. reflexivity.
Qed.
End Placeholders.

(** ** What the update is given *)

Lemma combine_truncates {A B} (l : list A) (l' : list B) :
  let n := Nat.min (length l) (length l') in
  combine l l' = combine (firstn n l) (firstn n l').
Proof.
  intros n. rewrite <- combine_firstn.
  symmetry. apply firstn_all2. rewrite length_combine. reflexivity.
Qed.

Lemma combine_map_snd {A B} (l : list A) (r : list B) :
  combine l (map snd (combine l r)) = combine l r.
Proof.
  revert r. induction l as [| a l IH]; intros [| b r]; simpl;
    try reflexivity. now rewrite IH.
Qed.

Section UpdateArguments.
Context {D : Driver}.
Variable py_repr : value -> string.

Local Abbreviation update :=
  (update_multiple_columns_by_multi_filter (D := D) py_repr).
Local Abbreviation update_rows := (update_rows_in_database (D := D) py_repr).

Ltac trace_cases :=
  repeat case_client;
  (eexists; split;
   [ rewrite <- ?app_assoc; simpl; reflexivity
   | repeat constructor ]).

Lemma update_trace cf fv uc uv t (w : World D) :
  exists evs,
    w_trace (fst (update cf fv uc uv t w)) = (w_trace w ++ evs)%list /\
    Forall (executes (update_query py_repr t cf uc uv)
                     (Some (coerce_filter_values fv))) evs.
Proof.
  unfold update_multiple_columns_by_multi_filter. unfold_py. trace_cases.
Qed.

Lemma update_trace_from_cursor cf fv uc uv t (w : World D) c1 h :
  d_cursor D (w_conn w) = (c1, DOk h) ->
  exists evs,
    w_trace (fst (update cf fv uc uv t w))
    = (w_trace w ++ EvCursor
         :: EvExecute h (update_query py_repr t cf uc uv)
                      (Some (coerce_filter_values fv))
         :: evs)%list.
Proof.
  intros Hcur. unfold update_multiple_columns_by_multi_filter. unfold_py.
  rewrite Hcur; simpl.
  repeat case_client; eexists; rewrite <- ?app_assoc; simpl; reflexivity.
Qed.

(** C5, as the code has it. The update makes no check on the shape of
    its arguments. The SET clause is rendered from the pairs that [zip]
    yields, that is from the first [min (len columns) (len values)]
    columns and values; whatever the two lengths are, the first thing
    the call does is to ask the connection for a cursor, and once it has
    one it executes the statement with the filter values it was
    given. *)
Theorem update_spec_is_zipped_not_checked cf fv uc uv t (w : World D) :
  let n := Nat.min (length uc) (length uv) in
  update_query py_repr t cf uc uv
  = update_query py_repr t cf (firstn n uc) (firstn n uv) /\
  (exists evs,
      w_trace (fst (update cf fv uc uv t w))
      = (w_trace w ++ EvCursor :: evs)%list) /\
  (forall c1 h,
      d_cursor D (w_conn w) = (c1, DOk h) ->
      exists evs,
        w_trace (fst (update cf fv uc uv t w))
        = (w_trace w ++ EvCursor
             :: EvExecute h (update_query py_repr t cf uc uv)
                          (Some (coerce_filter_values fv))
             :: evs)%list).
Proof.
  intros n. split; [| split].
  - unfold update_query, set_clause, combined_set.
    now rewrite (combine_truncates uc uv).
  - unfold update_multiple_columns_by_multi_filter. unfold_py.
    repeat case_client; eexists; rewrite <- ?app_assoc; simpl; reflexivity.
  - intros c1 h Hcur. now apply update_trace_from_cursor with (c1 := c1).
Qed.

(** The scalar filter value of the update is wrapped into a tuple
    before anything else happens. *)
Lemma update_scalar_filter_coerced cf v uc uv t (w : World D) :
  is_tuple v = false ->
  update cf v uc uv t w = update cf (VTuple [v]) uc uv t w.
Proof.
  intros Hv. unfold update_multiple_columns_by_multi_filter.
  unfold coerce_filter_values. rewrite Hv. reflexivity.
Qed.

Lemma row_update_weaken new_df filter_col table_name rows rows' e :
  incl rows rows' ->
  row_update py_repr new_df filter_col table_name rows e ->
  row_update py_repr new_df filter_col table_name rows' e.
Proof.
  intros Hincl. destruct e; simpl; auto.
  intros (row & key & Hin & Hrest). exists row, key. split; auto.
Qed.

Lemma sync_loop_trace new_df filter_col table_name rows l (w : World D) :
  exists evs,
    w_trace (snd (fst (for_each rows
                         (sync_row py_repr (columns new_df) filter_col table_name)
                         l w)))
    = (w_trace w ++ evs)%list /\
    Forall (row_update py_repr new_df filter_col table_name rows) evs.
Proof.
  revert l w. induction rows as [| row rows IH]; intros l w.
  - exists []. simpl. now rewrite app_nil_r.
  - simpl. unfold bind at 1. unfold sync_row at 1.
    unfold bind, lift_outcome, call_fn.
    destruct (row_getitem row filter_col) as [key | e] eqn:Hkey; simpl.
    + destruct (update_trace [VStr filter_col] key (columns new_df)
                  (row_values row) table_name w) as (evs1 & Htr1 & Hev1).
      assert (Hrow : Forall (row_update py_repr new_df filter_col table_name
                                        (row :: rows)) evs1).
      { eapply Forall_impl; [| exact Hev1]. intros [] He; simpl in *; auto.
        destruct He as [-> ->]. exists row, key. simpl. auto. }
      destruct (update _ _ _ _ _ w) as [w1 [r | e]]; simpl in *.
      * destruct (IH l w1) as (evs2 & Htr2 & Hev2).
        destruct (truthy r); simpl.
        -- exists (evs1 ++ evs2)%list. split.
           ++ rewrite Htr2, Htr1. now rewrite app_assoc.
           ++ apply Forall_app. split; [exact Hrow |].
              eapply Forall_impl; [| exact Hev2].
              intros e. apply row_update_weaken. now apply incl_tl.
        -- exists evs1. split; [exact Htr1 | exact Hrow].
      * exists evs1. split; [exact Htr1 | exact Hrow].
    + exists []. simpl. now rewrite app_nil_r.
Qed.

(** C2, as the code has it. Every statement the bulk update executes is
    the update rendered for one row of the frame, with the row's value
    under the filter column as the one filter value and with all the
    columns of the frame and all the values of the row as the columns
    and values to set: the pairs that [zip] makes of them are the row
    itself, the filter column included. The first row is always
    processed this way once the cursor is obtained. *)
Theorem bulk_update_sets_every_column new_df filter_col table_name (w : World D) :
  (exists evs,
      w_trace (fst (update_rows new_df filter_col table_name w))
      = (w_trace w ++ evs)%list /\
      Forall (row_update py_repr new_df filter_col table_name (iterrows new_df)) evs) /\
  (forall row,
      In row (iterrows new_df) ->
      combine (columns new_df) (row_values row) = row) /\
  (forall row rest key c1 h,
      empty new_df = false ->
      iterrows new_df = row :: rest ->
      row_getitem row filter_col = Return key ->
      d_cursor D (w_conn w) = (c1, DOk h) ->
      exists evs,
        w_trace (fst (update_rows new_df filter_col table_name w))
        = (w_trace w ++ EvCursor
             :: EvExecute h (update_query py_repr table_name [VStr filter_col]
                                          (columns new_df) (row_values row))
                          (Some (coerce_filter_values key))
             :: evs)%list).
Proof.
  split; [| split].
  - rewrite update_rows_unfold. destruct (empty new_df).
    + exists []. simpl. now rewrite app_nil_r.
    + unfold call, bind.
      destruct (sync_loop_trace new_df filter_col table_name
                  (iterrows new_df) no_locals w) as (evs & Htr & Hev).
      exists evs. split; [| exact Hev].
      destruct (for_each _ _ _ _) as [[l' w'] [[] | r | e]]; exact Htr.
  - intros row Hin. unfold iterrows in Hin. apply in_map_iff in Hin.
    destruct Hin as (r & <- & _). unfold row_values.
    apply combine_map_snd.
  - intros row rest key c1 h Hne Hrows Hkey Hcur.
    rewrite update_rows_unfold, Hne, Hrows. unfold call. unfold bind at 1.
    simpl for_each. unfold bind at 1. unfold sync_row at 1.
    unfold bind, lift_outcome, call_fn. rewrite Hkey. simpl.
    destruct (update_trace_from_cursor [VStr filter_col] key (columns new_df)
                (row_values row) table_name w c1 h Hcur) as (evs1 & Htr1).
    destruct (update _ _ _ _ _ w) as [w1 [r | e]]; simpl in *.
    + destruct (sync_loop_trace new_df filter_col table_name rest
                  no_locals w1) as (evs2 & Htr2 & _).
      destruct (truthy r); simpl.
      * exists (evs1 ++ evs2)%list.
        destruct (for_each _ _ _ _) as [[l' w'] [[] | r' | e]]; simpl in *;
          rewrite Htr2, Htr1, <- app_assoc; reflexivity.
      * exists evs1. exact Htr1.
    + exists evs1. exact Htr1.
Qed.
End UpdateArguments.

(** ** Runs on the test double *)

(** C1. The bulk update does not stop at a failing row. On a frame of one
    row whose update the engine rejects, the statement is rolled back,
    nothing is committed, and the call still answers [True]. On a frame
    of three rows whose second update is rejected (on a connection that
    survives [close()]), the third row is executed and committed after
    the failure, and the call answers [True]. *)
Theorem bulk_update_ignores_failed_row :
  let failed :=
    update_rows_in_database simple_repr one_row "id" "t"
      (fresh_world false (rejects_id 2) no_rows) in
  let batch :=
    update_rows_in_database simple_repr three_rows "id" "t"
      (fresh_world true (rejects_id 2) no_rows) in
  (snd failed = Return (Some true) /\
   w_trace (fst failed)
   = [EvCursor;
      EvExecute 0 (fst (update_of_row 2 "b")) (snd (update_of_row 2 "b"));
      EvRollback; EvCursorClose 0; EvClose] /\
   committed (w_conn (fst failed)) = []) /\
  (snd batch = Return (Some true) /\
   filter is_execute (w_trace (fst batch))
   = [EvExecute 0 (fst (update_of_row 1 "a")) (snd (update_of_row 1 "a"));
      EvExecute 1 (fst (update_of_row 2 "b")) (snd (update_of_row 2 "b"));
      EvExecute 2 (fst (update_of_row 3 "c")) (snd (update_of_row 3 "c"))] /\
   committed (w_conn (fst batch)) = [update_of_row 1 "a"; update_of_row 3 "c"]).
Proof. vm_compute. repeat split. Qed.

(** C2 fails as worded: for the row [(2, 'b')] filtered on [id], the
    statement executed sets [id] as well as [name], and it is not the
    statement rendered from the pairs other than the filter column. *)
Lemma bulk_update_sets_filter_column_too :
  let row := [(VStr "id", VInt 2); (VStr "name", VStr "b")] in
  let executed :=
    update_query simple_repr "t" [VStr "id"] (map fst row) (map snd row) in
  let worded :=
    update_query simple_repr "t" [VStr "id"]
      (map fst (other_pairs row "id")) (map snd (other_pairs row "id")) in
  iterrows one_row = [row] /\
  w_trace (fst (update_rows_in_database simple_repr one_row "id" "t"
                  (fresh_world false accepts_all no_rows)))
  = [EvCursor; EvExecute 0 executed (Some (VTuple [VInt 2]));
     EvCommit; EvCursorClose 0; EvClose] /\
  executed <> worded.
Proof.
  vm_compute. split; [reflexivity | split; [reflexivity | discriminate]].
Qed.

(** C4. The equality read hands a bare scalar to [execute] as it is. On a
    client that refuses parameters that are not a sequence, the read of
    [id = 3] with the scalar [3] ends in [UnboundLocalError] after a
    rollback, while the same read with the tuple [(3,)] returns the row;
    the update, which wraps the scalar, behaves alike on both. *)
Theorem equality_read_passes_scalar_uncoerced :
  let w := fresh_world false rejects_bare_scalar table_t in
  let query := select_where_query simple_repr "t" [VStr "id"] in
  let scalar := get_all_with_multiple_filters simple_repr [VStr "id"] (VInt 3) "t" w in
  let tuple :=
    get_all_with_multiple_filters simple_repr [VStr "id"] (VTuple [VInt 3]) "t" w in
  (snd scalar = Raise (UnboundLocalError "result") /\
   w_trace (fst scalar)
   = [EvCursor; EvExecute 0 query (Some (VInt 3));
      EvRollback; EvCursorClose 0; EvClose]) /\
  (snd tuple = Return (Some (mkDataFrame id_name [[VInt 3; VStr "c"]])) /\
   filter is_execute (w_trace (fst tuple))
   = [EvExecute 0 query (Some (VTuple [VInt 3]));
      EvExecute 1 (describe_query "t") None]) /\
  update_multiple_columns_by_multi_filter simple_repr [VStr "id"] (VInt 3)
    [VStr "name"] [VStr "d"] "t" w
  = update_multiple_columns_by_multi_filter simple_repr [VStr "id"] (VTuple [VInt 3])
      [VStr "name"] [VStr "d"] "t" w.
Proof. vm_compute. repeat split. Qed.

(** C5 fails as worded: an update given two columns and one value raises
    nothing; it asks for a cursor, executes the statement rendered from
    the one pair that [zip] yields, commits it and returns [1]. *)
Lemma mismatched_update_spec_is_executed :
  let run :=
    update_multiple_columns_by_multi_filter simple_repr [VStr "id"]
      (VTuple [VInt 1]) [VStr "name"; VStr "age"] [VStr "a"] "t"
      (fresh_world false accepts_all no_rows) in
  let truncated :=
    update_query simple_repr "t" [VStr "id"] [VStr "name"] [VStr "a"] in
  snd run = Return (Some 1%Z) /\
  w_trace (fst run)
  = [EvCursor; EvExecute 0 truncated (Some (VTuple [VInt 1]));
     EvCommit; EvCursorClose 0; EvClose] /\
  committed (w_conn (fst run)) = [(truncated, Some (VTuple [VInt 1]))].
Proof. vm_compute. repeat split. Qed.

(** C7 fails as worded, in two ways. The equality read given two filter
    columns and one filter value executes a statement with two
    placeholders and one bound parameter. And a marker inside an inlined
    text counts as a placeholder that nothing binds: the update that
    sets [name] to ['100%s'] executes a statement with two placeholders
    and one bound parameter, and so do a filter literal, a column name
    and a table name that contain the marker. *)
Lemma placeholders_outnumber_parameters :
  let short := select_where_query simple_repr "t" [VStr "id"; VStr "name"] in
  let inlined :=
    update_query simple_repr "t" [VStr "id"] [VStr "name"] [VStr "100%s"] in
  let params := Some (VTuple [VInt 1]) in
  (w_trace (fst (get_all_with_multiple_filters simple_repr
                   [VStr "id"; VStr "name"] (VTuple [VInt 1]) "t"
                   (fresh_world false accepts_all no_rows)))
   = [EvCursor; EvExecute 0 short params; EvFetchall 0; EvCursorClose 0; EvClose] /\
   count_placeholders short = 2 /\
   bound_parameters params = Some 1) /\
  (w_trace (fst (update_multiple_columns_by_multi_filter simple_repr
                   [VStr "id"] (VTuple [VInt 1]) [VStr "name"] [VStr "100%s"] "t"
                   (fresh_world false accepts_all no_rows)))
   = [EvCursor; EvExecute 0 inlined params; EvCommit; EvCursorClose 0; EvClose] /\
   count_placeholders inlined = 2 /\
   bound_parameters params = Some 1) /\
  (count_placeholders (select_in_query simple_repr "t" "id" [VStr "100%s"]) = 1 /\
   bound_parameters None = Some 0) /\
  (count_placeholders (select_where_query simple_repr "t" [VStr "rate%s"]) = 2 /\
   bound_parameters params = Some 1) /\
  (count_placeholders (select_all_query "t%s") = 1 /\
   bound_parameters None = Some 0).
Proof. vm_compute. repeat split. Qed.

(** ** The theorems at concrete inputs *)

(** Each general theorem above is applied to a run on the test double,
    with its premises computed. *)

Lemma mock_bookkeeping_never_raises rejects rows_of :
  bookkeeping_never_raises (D := mock true rejects rows_of).
Proof.
  repeat split; intros; simpl; repeat eexists.
Defined.

Lemma update_reports_success_on_every_path_witness :
  let w := fresh_world true (rejects_id 2) no_rows in
  (d_cursor _ (w_conn w) = (mkMockConn true 1 EmptyString [] [], DOk 0) /\
   snd (update_multiple_columns_by_multi_filter simple_repr [VStr "id"] (VInt 2)
          id_name [VInt 2; VStr "b"] "t" w) = Return (Some 1%Z)) /\
  (empty three_rows = false /\
   Forall (fun row => is_return (row_getitem row "id") = true)
          (iterrows three_rows) /\
   exists w',
     update_rows_in_database simple_repr three_rows "id" "t" w
     = (w', Return (Some true))).
Proof.
  intros w.
  destruct (update_reports_success_on_every_path
              (D := mock true (rejects_id 2) no_rows) simple_repr)
    as (_ & Hrejected & _ & Hrows).
  split; [split; [reflexivity |] | split; [reflexivity | split]].
  - erewrite Hrejected; reflexivity.
  - repeat constructor.
  - apply Hrows.
    + reflexivity.
    + apply mock_bookkeeping_never_raises.
    + repeat constructor.
Defined.

Lemma get_table_columns_describe_error_raises_witness :
  let w := fresh_world false rejects_all no_rows in
  d_cursor _ (w_conn w) = (mkMockConn true 1 EmptyString [] [], DOk 0) /\
  is_return (snd (get_table_columns "t" w)) = false /\
  snd (get_table_columns "t" w) = Raise (UnboundLocalError "result").
Proof.
  intros w.
  destruct (get_table_columns_describe_error_raises
              (D := mock false rejects_all no_rows) "t" w
              (mkMockConn true 1 EmptyString [] []) 0
              (mkMockConn true 1 EmptyString [] []) "statement rejected"
              eq_refl eq_refl) as [Hraises Hrun].
  split; [reflexivity | split; [exact Hraises |]].
  erewrite Hrun; reflexivity.
Defined.

Lemma insert_is_best_effort_witness :
  let w := fresh_world false (rejects_id 2) no_rows in
  let query := insert_statement "t" "id, name" 2 in
  join_labels ", " (columns three_rows) = Return "id, name" /\
  d_cursor _ (w_conn w) = (mkMockConn true 1 EmptyString [] [], DOk 0) /\
  snd (insert_into_table three_rows "t" w) = Return (Some 1%Z) /\
  w_trace (fst (insert_into_table three_rows "t" w))
  = [EvCursor;
     EvExecute 0 query (Some (VTuple [VInt 1; VStr "a"]));
     EvExecute 0 query (Some (VTuple [VInt 2; VStr "b"]));
     EvExecute 0 query (Some (VTuple [VInt 3; VStr "c"]));
     EvCommit; EvCursorClose 0] /\
  committed (w_conn (fst (insert_into_table three_rows "t" w)))
  = [(query, Some (VTuple [VInt 1; VStr "a"]));
     (query, Some (VTuple [VInt 3; VStr "c"]))].
Proof.
  intros w query.
  destruct (insert_is_best_effort
              (D := mock false (rejects_id 2) no_rows) three_rows "t" w
              "id, name" (mkMockConn true 1 EmptyString [] []) 0
              eq_refl eq_refl) as [_ Hrun].
  split; [reflexivity | split; [reflexivity |]].
  erewrite Hrun by reflexivity. repeat split.
Defined.

Lemma bulk_update_sets_every_column_witness :
  let w := fresh_world false accepts_all no_rows in
  let row := [(VStr "id", VInt 2); (VStr "name", VStr "b")] in
  In row (iterrows one_row) /\
  combine (columns one_row) (row_values row) = row /\
  empty one_row = false /\
  iterrows one_row = [row] /\
  row_getitem row "id" = Return (VInt 2) /\
  d_cursor _ (w_conn w) = (mkMockConn true 1 EmptyString [] [], DOk 0) /\
  exists evs,
    w_trace (fst (update_rows_in_database simple_repr one_row "id" "t" w))
    = EvCursor
        :: EvExecute 0 (update_query simple_repr "t" [VStr "id"] id_name
                                     [VInt 2; VStr "b"])
                     (Some (VTuple [VInt 2]))
        :: evs.
Proof.
  intros w row.
  destruct (bulk_update_sets_every_column
              (D := mock false accepts_all no_rows) simple_repr one_row "id" "t" w)
    as (_ & Hpairs & Hfirst).
  assert (Hin : In row (iterrows one_row)) by (left; reflexivity).
  split; [exact Hin | split; [exact (Hpairs row Hin) |]].
  split; [reflexivity | split; [reflexivity | split; [reflexivity |]]].
  split; [reflexivity |].
  exact (Hfirst row [] (VInt 2) (mkMockConn true 1 EmptyString [] []) 0
                eq_refl eq_refl eq_refl eq_refl).
Defined.

Lemma update_spec_is_zipped_not_checked_witness :
  let w := fresh_world false accepts_all no_rows in
  d_cursor _ (w_conn w) = (mkMockConn true 1 EmptyString [] [], DOk 0) /\
  update_query simple_repr "t" [VStr "id"] [VStr "name"; VStr "age"] [VStr "a"]
  = update_query simple_repr "t" [VStr "id"] [VStr "name"] [VStr "a"] /\
  exists evs,
    w_trace (fst (update_multiple_columns_by_multi_filter simple_repr
                    [VStr "id"] (VTuple [VInt 1]) [VStr "name"; VStr "age"]
                    [VStr "a"] "t" w))
    = EvCursor
        :: EvExecute 0 (update_query simple_repr "t" [VStr "id"]
                                     [VStr "name"; VStr "age"] [VStr "a"])
                     (Some (VTuple [VInt 1]))
        :: evs.
Proof.
  intros w.
  destruct (update_spec_is_zipped_not_checked
              (D := mock false accepts_all no_rows) simple_repr
              [VStr "id"] (VTuple [VInt 1]) [VStr "name"; VStr "age"]
              [VStr "a"] "t" w) as (Hzip & _ & Hrun).
  split; [reflexivity | split; [exact Hzip |]].
  exact (Hrun (mkMockConn true 1 EmptyString [] []) 0 eq_refl).
Defined.

Lemma placeholders_match_bound_parameters_witness :
  marker_free "t" /\
  Forall (marker_free_name simple_repr) id_name /\
  Forall (marker_free_literal simple_repr) [VInt 2; VStr "50%"] /\
  bound_parameters (Some (VTuple [VInt 1; VStr "a"]))
  = Some (count_placeholders (select_where_query simple_repr "t" id_name)) /\
  bound_parameters (Some (coerce_filter_values (VInt 2)))
  = Some (count_placeholders
            (update_query simple_repr "t" [VStr "id"] id_name
                          [VInt 2; VStr "50%"])) /\
  bound_parameters (Some (VTuple [VInt 2; VStr "b"]))
  = Some (count_placeholders (insert_statement "t" "id, name" 2)).
Proof.
  assert (Hnames : Forall (marker_free_name simple_repr) id_name)
    by (repeat constructor).
  assert (Hvalues : Forall (marker_free_literal simple_repr) [VInt 2; VStr "50%"])
    by (repeat constructor).
  destruct (placeholders_match_bound_parameters simple_repr "t" eq_refl)
    as (_ & _ & Hinsert & Hselect & Hupdate & _).
  split; [reflexivity | split; [exact Hnames | split; [exact Hvalues |]]].
  split; [| split].
  - exact (Hselect id_name (VTuple [VInt 1; VStr "a"]) Hnames eq_refl).
  - apply (Hupdate [VStr "id"] (VInt 2) id_name [VInt 2; VStr "50%"]).
    + repeat constructor.
    + exact Hnames.
    + exact Hvalues.
    + reflexivity.
  - exact (Hinsert "id, name" [VInt 2; VStr "b"] eq_refl).
Defined.


(** ** Further properties: the cursor that was never obtained *)

Section CursorFailure.
Context {D : Driver}.
Variable py_repr : value -> string.

Ltac cursor_fails Hcur :=
  unfold forget; unfold_py; rewrite Hcur; simpl;
  repeat case_client; rewrite <- ?app_assoc; simpl;
  match goal with
  | E : d_rollback D _ = _ |- _ => rewrite ?E; simpl
  end; reflexivity.

Lemma filtered_read_cursor_failure query params table_name (w : World D) c1 msg :
  d_cursor D (w_conn w) = (c1, DErr msg) ->
  forget (filtered_read query params table_name) w
  = (mkWorld (fst (d_rollback D c1)) (w_trace w ++ [EvCursor; EvRollback])%list,
     Some (UnboundLocalError "cursor")).
Proof. intros Hcur. unfold filtered_read. cursor_fails Hcur. Qed.

Lemma cursor_failure_run f (w : World D) c1 msg :
  cursor_call py_repr f ->
  d_cursor D (w_conn w) = (c1, DErr msg) ->
  f w = (mkWorld (fst (d_rollback D c1)) (w_trace w ++ [EvCursor; EvRollback])%list,
         Some (UnboundLocalError "cursor")).
Proof.
  intros [t | df t cols Hjoin | t | fl t c | cf fv t | cf fv uc uv t] Hcur.
  - unfold get_all_data_from_table. cursor_fails Hcur.
  - unfold insert_into_table. rewrite Hjoin. cursor_fails Hcur.
  - unfold get_table_columns. cursor_fails Hcur.
  - now apply filtered_read_cursor_failure with (msg := msg).
  - now apply filtered_read_cursor_failure with (msg := msg).
  - unfold update_multiple_columns_by_multi_filter. cursor_fails Hcur.
Qed.

(** X5. A [connector.Error] raised by [conn.cursor()] is not absorbed by any
    function of the module: the handler rolls back, the [finally] block
    then reads the local [cursor], which was never bound, and the call
    ends in [UnboundLocalError] whatever the rollback answered. Nothing is
    executed, and the functions that close the connection do not get to
    close it. *)
Theorem cursor_failure_escapes f (w : World D) c1 msg :
  cursor_call py_repr f ->
  d_cursor D (w_conn w) = (c1, DErr msg) ->
  snd (f w) = Some (UnboundLocalError "cursor") /\
  w_trace (fst (f w)) = (w_trace w ++ [EvCursor; EvRollback])%list /\
  w_conn (fst (f w)) = fst (d_rollback D c1).
Proof.
  intros Hf Hcur. rewrite (cursor_failure_run f w c1 msg Hf Hcur).
  repeat split.
Qed.
End CursorFailure.

(** ** Further properties: which calls leave the connection open *)

Lemma statements_of_app (a b : list event) :
  statements_of (a ++ b) = (statements_of a ++ statements_of b)%list.
Proof.
  induction a as [| e a IH]; [reflexivity |].
  destruct e; simpl; now rewrite ?IH.
Qed.

Lemma execute_events_keep_open h query rows :
  forallb (fun e => negb (is_close e)) (execute_events h query rows) = true.
Proof. induction rows as [| v rows IH]; [reflexivity | exact IH]. Qed.

Section KeepingOpen.
Context {D : Driver}.
Variable py_repr : value -> string.

Ltac open_cases :=
  repeat (case_client ||
          match goal with
          | |- context [first_items ?r] =>
              let e := fresh "e" in
              destruct (first_items r) as [? | e]; [| destruct e]; simpl
          end);
  (eexists; split; [rewrite <- ?app_assoc; simpl; reflexivity | reflexivity]).

(** X7. The select-all, the bulk insert and the schema query never call
    [conn.close()]: unlike the filtered reads and the update, they leave
    the connection they were lent as usable as they found it. *)
Theorem connection_kept_open op (w : World D) :
  keeping_call op ->
  exists evs,
    w_trace (op w) = (w_trace w ++ evs)%list /\
    forallb (fun e => negb (is_close e)) evs = true.
Proof.
  intros [t | df t | t].
  - unfold get_all_data_from_table. unfold_py. open_cases.
  - unfold insert_into_table.
    destruct (join_labels ", " (columns df)) as [cols | e].
    + unfold_py. case_client.
      * rewrite insert_loop_runs_every_row with (h := r) by reflexivity.
        simpl.
        repeat case_client;
          (eexists; split; [rewrite <- ?app_assoc; simpl; reflexivity |]);
          simpl; rewrite forallb_app, execute_events_keep_open; reflexivity.
      * open_cases.
    + exists []. unfold_py. now rewrite app_nil_r.
  - unfold get_table_columns. unfold_py. open_cases.
Qed.

Lemma closing_call_closes op (w : World D) c1 h :
  closing_call py_repr op ->
  d_cursor D (w_conn w) = (c1, DOk h) ->
  (forall c, exists c', d_cursor_close D h c = (c', DOk tt)) ->
  closed_on_exit h w (op w).
Proof.
  intros [fl t c | cf fv t | cf fv uc uv t] Hcur Hcc.
  - now apply filtered_read_closes with (c1 := c1).
  - now apply filtered_read_closes with (c1 := c1).
  - now apply update_closes with (c1 := c1).
Qed.

End KeepingOpen.

(** ** Further properties: what the reads hand back *)

Lemma first_items_nonempty (rows : list (list value)) :
  Forall (fun row => row <> []) rows ->
  first_items rows = Return (map (hd VNone) rows).
Proof.
  induction 1 as [| row rows Hrow _ IH]; [reflexivity |].
  destruct row as [| x row]; [contradiction |].
  unfold first_items; fold first_items. now rewrite IH.
Qed.

Lemma first_items_empty_row (rows : list (list value)) :
  Exists (fun row => row = []) rows ->
  first_items rows = Raise (IndexError "tuple index out of range").
Proof.
  induction 1 as [row rows Hrow | row rows _ IH].
  - subst row. reflexivity.
  - destruct row as [| x row]; [reflexivity |].
    unfold first_items; fold first_items. now rewrite IH.
Qed.

Section ReadResults.
Context {D : Driver}.
Variable py_repr : value -> string.

(** X8. The select-all, once it has its cursor, returns the fetched rows as
    an unlabelled frame, and answers [None] (it returns, it does not
    raise) when the statement or the fetch is rejected and the rollback
    goes through. Either way only the cursor is released. *)
Theorem select_all_returns_frame_or_none table_name (w : World D) c1 h :
  d_cursor D (w_conn w) = (c1, DOk h) ->
  let query := select_all_query table_name in
  (forall c2 c3 rows c4,
      d_execute D h query None c1 = (c2, DOk tt) ->
      d_fetchall D h c2 = (c3, DOk rows) ->
      d_cursor_close D h c3 = (c4, DOk tt) ->
      get_all_data_from_table table_name w
      = (mkWorld c4 (w_trace w ++ [EvCursor; EvExecute h query None;
                                   EvFetchall h; EvCursorClose h])%list,
         Return (Some (DataFrame_of_rows rows)))) /\
  (forall c2 msg c3 c4,
      d_execute D h query None c1 = (c2, DErr msg) ->
      d_rollback D c2 = (c3, DOk tt) ->
      d_cursor_close D h c3 = (c4, DOk tt) ->
      get_all_data_from_table table_name w
      = (mkWorld c4 (w_trace w ++ [EvCursor; EvExecute h query None;
                                   EvRollback; EvCursorClose h])%list,
         Return None)) /\
  (forall c2 c3 msg c4 c5,
      d_execute D h query None c1 = (c2, DOk tt) ->
      d_fetchall D h c2 = (c3, DErr msg) ->
      d_rollback D c3 = (c4, DOk tt) ->
      d_cursor_close D h c4 = (c5, DOk tt) ->
      get_all_data_from_table table_name w
      = (mkWorld c5 (w_trace w ++ [EvCursor; EvExecute h query None;
                                   EvFetchall h; EvRollback;
                                   EvCursorClose h])%list,
         Return None)).
Proof.
  intros Hcur query. subst query.
  split; [| split]; intros; unfold get_all_data_from_table; unfold_py;
    repeat match goal with
           | H : _ = (_, _) |- _ => rewrite H; simpl; clear H
           end; trace_eq.
Qed.

(** X9. The schema query, when it goes through, returns the first item of
    every fetched row, in the order fetched; a fetched row without items
    makes it raise [IndexError], after the cursor has been released. *)
Theorem get_table_columns_returns_first_items table_name (w : World D)
        c1 h c2 c3 rows c4 :
  d_cursor D (w_conn w) = (c1, DOk h) ->
  d_execute D h (describe_query table_name) None c1 = (c2, DOk tt) ->
  d_fetchall D h c2 = (c3, DOk rows) ->
  d_cursor_close D h c3 = (c4, DOk tt) ->
  let w' := mkWorld c4 (w_trace w ++
                        [EvCursor; EvExecute h (describe_query table_name) None;
                         EvFetchall h; EvCursorClose h])%list in
  (Forall (fun row => row <> []) rows ->
   get_table_columns table_name w = (w', Return (Some (map (hd VNone) rows)))) /\
  (Exists (fun row => row = []) rows ->
   get_table_columns table_name w
   = (w', Raise (IndexError "tuple index out of range"))).
Proof.
  intros Hcur Hexe Hfetch Hcc w'. subst w'.
  split; intros Hrows; unfold get_table_columns; unfold_py;
    rewrite Hcur; simpl; rewrite Hexe; simpl; rewrite Hfetch; simpl.
  - rewrite (first_items_nonempty rows Hrows); simpl.
    rewrite Hcc; simpl. trace_eq.
  - rewrite (first_items_empty_row rows Hrows); simpl.
    rewrite Hcc; simpl. trace_eq.
Qed.

(** X10. A filtered read whose statement is rejected rolls back, releases the
    cursor, closes the connection and then reads the local [result],
    which was never bound: the caller gets [UnboundLocalError], not the
    engine's error and not a value. *)
Theorem filtered_read_failure_is_unbound_result read query params table_name
        (w : World D) c1 h c2 msg c3 c4 c5 :
  filtered_read_call (D := D) py_repr read query params table_name ->
  d_cursor D (w_conn w) = (c1, DOk h) ->
  d_execute D h query params c1 = (c2, DErr msg) ->
  d_rollback D c2 = (c3, DOk tt) ->
  d_cursor_close D h c3 = (c4, DOk tt) ->
  d_close D c4 = (c5, DOk tt) ->
  read w = (mkWorld c5 (w_trace w ++ [EvCursor; EvExecute h query params;
                                      EvRollback; EvCursorClose h;
                                      EvClose])%list,
            Raise (UnboundLocalError "result")).
Proof.
  intros Hread Hcur Hexe Hrb Hcc Hcl.
  rewrite (filtered_read_call_unfold py_repr _ _ _ _ Hread).
  unfold filtered_read. unfold_py.
  rewrite Hcur; simpl. rewrite Hexe; simpl. rewrite Hrb; simpl.
  rewrite Hcc; simpl. rewrite Hcl; simpl. trace_eq.
Qed.

(** The two ways the labelling of a non-empty result goes wrong. *)
Lemma filtered_read_after_fetch query params table_name (w : World D)
      c1 h c2 c3 rows :
  d_cursor D (w_conn w) = (c1, DOk h) ->
  d_execute D h query params c1 = (c2, DOk tt) ->
  d_fetchall D h c2 = (c3, DOk rows) ->
  empty (DataFrame_of_rows rows) = false ->
  forall w4 o c5 c6 msg,
    get_table_columns table_name
      (mkWorld c3 (w_trace w ++ [EvCursor; EvExecute h query params;
                                 EvFetchall h])%list) = (w4, o) ->
    (o = Raise (ConnectorError msg) ->
     forall c7,
       d_rollback D (w_conn w4) = (c5, DOk tt) ->
       d_cursor_close D h c5 = (c6, DOk tt) ->
       d_close D c6 = (c7, DOk tt) ->
       filtered_read query params table_name w
       = (mkWorld c7 (w_trace w4 ++ [EvRollback; EvCursorClose h; EvClose])%list,
          Return (Some (DataFrame_of_rows rows)))) /\
    (forall names,
        o = Return (Some names) ->
        length names <> length (columns (DataFrame_of_rows rows)) ->
        d_cursor_close D h (w_conn w4) = (c5, DOk tt) ->
        d_close D c5 = (c6, DOk tt) ->
        filtered_read query params table_name w
        = (mkWorld c6 (w_trace w4 ++ [EvCursorClose h; EvClose])%list,
           Raise (ValueError "Length mismatch"))).
Proof.
  intros Hcur Hexe Hfetch Hne w4 o c5 c6 msg Hcols.
  assert (Hw3 : mkWorld c3 (((w_trace w ++ [EvCursor]) ++
                             [EvExecute h query params]) ++
                            [EvFetchall h])%list
                = mkWorld c3 (w_trace w ++ [EvCursor; EvExecute h query params;
                                            EvFetchall h])%list).
  { now rewrite !app_assoc_cons. }
  split.
  - intros -> c7 Hrb Hcc Hcl.
    unfold filtered_read. unfold_py.
    rewrite Hcur; simpl. rewrite Hexe; simpl. rewrite Hfetch; simpl.
    rewrite Hne; simpl. rewrite Hw3, Hcols; simpl.
    rewrite Hrb; simpl. rewrite Hcc; simpl. rewrite Hcl; simpl. trace_eq.
  - intros names -> Hlen Hcc Hcl.
    unfold filtered_read. unfold_py.
    rewrite Hcur; simpl. rewrite Hexe; simpl. rewrite Hfetch; simpl.
    rewrite Hne; simpl. rewrite Hw3, Hcols; simpl.
    unfold label_result. unfold_py. unfold set_columns.
    apply Nat.eqb_neq in Hlen. rewrite Hlen; simpl.
    rewrite Hcc; simpl. rewrite Hcl; simpl. trace_eq.
Qed.

(** X11. When the schema query made for a non-empty result ends in a
    [connector.Error] (its own rollback or the release of its cursor
    raised), the read's handler catches it, rolls back, and the read
    returns the rows under their positional labels: the caller gets an
    unlabelled frame, not an error. *)
Theorem unlabelled_frame_when_schema_query_raises read query params table_name
        (w : World D) c1 h c2 c3 rows w4 msg c5 c6 c7 :
  filtered_read_call (D := D) py_repr read query params table_name ->
  d_cursor D (w_conn w) = (c1, DOk h) ->
  d_execute D h query params c1 = (c2, DOk tt) ->
  d_fetchall D h c2 = (c3, DOk rows) ->
  empty (DataFrame_of_rows rows) = false ->
  get_table_columns table_name
    (mkWorld c3 (w_trace w ++ [EvCursor; EvExecute h query params;
                               EvFetchall h])%list)
  = (w4, Raise (ConnectorError msg)) ->
  d_rollback D (w_conn w4) = (c5, DOk tt) ->
  d_cursor_close D h c5 = (c6, DOk tt) ->
  d_close D c6 = (c7, DOk tt) ->
  read w = (mkWorld c7 (w_trace w4 ++ [EvRollback; EvCursorClose h; EvClose])%list,
            Return (Some (DataFrame_of_rows rows))).
Proof.
  intros Hread Hcur Hexe Hfetch Hne Hcols Hrb Hcc Hcl.
  rewrite (filtered_read_call_unfold py_repr _ _ _ _ Hread).
  destruct (filtered_read_after_fetch query params table_name w c1 h c2 c3 rows
              Hcur Hexe Hfetch Hne w4 _ c5 c6 msg Hcols) as [Hraw _].
  now apply Hraw.
Qed.

(** X12. When the schema query returns a number of names other than the width
    of the fetched rows, the read raises [ValueError] from the assignment
    of the labels, after releasing the cursor and closing the
    connection. *)
Theorem label_count_mismatch_raises_value_error read query params table_name
        (w : World D) c1 h c2 c3 rows w4 names c5 c6 :
  filtered_read_call (D := D) py_repr read query params table_name ->
  d_cursor D (w_conn w) = (c1, DOk h) ->
  d_execute D h query params c1 = (c2, DOk tt) ->
  d_fetchall D h c2 = (c3, DOk rows) ->
  empty (DataFrame_of_rows rows) = false ->
  get_table_columns table_name
    (mkWorld c3 (w_trace w ++ [EvCursor; EvExecute h query params;
                               EvFetchall h])%list)
  = (w4, Return (Some names)) ->
  length names <> length (columns (DataFrame_of_rows rows)) ->
  d_cursor_close D h (w_conn w4) = (c5, DOk tt) ->
  d_close D c5 = (c6, DOk tt) ->
  read w = (mkWorld c6 (w_trace w4 ++ [EvCursorClose h; EvClose])%list,
            Raise (ValueError "Length mismatch")).
Proof.
  intros Hread Hcur Hexe Hfetch Hne Hcols Hlen Hcc Hcl.
  rewrite (filtered_read_call_unfold py_repr _ _ _ _ Hread).
  destruct (filtered_read_after_fetch query params table_name w c1 h c2 c3 rows
              Hcur Hexe Hfetch Hne w4 _ c5 c6 EmptyString Hcols) as [_ Hbad].
  now apply (Hbad names).
Qed.
End ReadResults.

(** ** Further properties: the writes *)

Lemma str_items_non_str (labels : list value) :
  Exists (fun l => is_str l = false) labels ->
  str_items labels = Raise (TypeError "sequence item: expected str instance").
Proof.
  induction 1 as [l labels Hl | l labels _ IH].
  - destruct l; simpl in *; try reflexivity. discriminate.
  - destruct l; simpl; try reflexivity. now rewrite IH.
Qed.

Lemma no_label_no_item (cols : list value) (r : list value) (key : string) :
  (forall l, In l cols -> label_is key l = false) ->
  filter (fun p => label_is key (fst p)) (combine cols r) = [].
Proof.
  intros Hno. revert r. induction cols as [| c cols IH]; intros r; [reflexivity |].
  destruct r as [| v r]; [reflexivity |]. simpl.
  rewrite (Hno c) by now left. apply IH.
  intros l Hl. apply Hno. now right.
Qed.

Section Writes.
Context {D : Driver}.
Variable py_repr : value -> string.

Local Abbreviation update :=
  (update_multiple_columns_by_multi_filter (D := D) py_repr).
Local Abbreviation update_rows := (update_rows_in_database (D := D) py_repr).

(** X13. A frame with a column label that is not a string makes the bulk
    insert raise [TypeError] while it joins the labels, before any call on
    the connection. *)
Theorem insert_rejects_unnamed_columns data_df table_name (w : World D) :
  Exists (fun l => is_str l = false) (columns data_df) ->
  insert_into_table data_df table_name w
  = (w, Raise (TypeError "sequence item: expected str instance")).
Proof.
  intros Hbad. unfold insert_into_table, join_labels.
  rewrite (str_items_non_str _ Hbad). reflexivity.
Qed.

(** X14. A failed [commit] is rolled back and still reported as [1], by the
    bulk insert and by the update alike: the returned status does not tell
    a committed write from a write that was rolled back. *)
Theorem failed_commit_reported_as_success :
  (forall data_df table_name (w : World D) column_list c1 h c2 msg c3 c4,
      join_labels ", " (columns data_df) = Return column_list ->
      d_cursor D (w_conn w) = (c1, DOk h) ->
      let query :=
        insert_statement table_name column_list (length (columns data_df)) in
      let rows := map VTuple (values data_df) in
      d_commit D (execute_all h query rows c1) = (c2, DErr msg) ->
      d_rollback D c2 = (c3, DOk tt) ->
      d_cursor_close D h c3 = (c4, DOk tt) ->
      insert_into_table data_df table_name w
      = (mkWorld c4 (w_trace w ++ EvCursor :: execute_events h query rows
                           ++ [EvCommit; EvRollback; EvCursorClose h])%list,
         Return (Some 1%Z))) /\
  (forall cf fv uc uv t (w : World D) c1 h c2 c3 msg c4 c5 c6,
      d_cursor D (w_conn w) = (c1, DOk h) ->
      d_execute D h (update_query py_repr t cf uc uv)
                (Some (coerce_filter_values fv)) c1 = (c2, DOk tt) ->
      d_commit D c2 = (c3, DErr msg) ->
      d_rollback D c3 = (c4, DOk tt) ->
      d_cursor_close D h c4 = (c5, DOk tt) ->
      d_close D c5 = (c6, DOk tt) ->
      update cf fv uc uv t w
      = (mkWorld c6
           (w_trace w ++
            [EvCursor;
             EvExecute h (update_query py_repr t cf uc uv)
                       (Some (coerce_filter_values fv));
             EvCommit; EvRollback; EvCursorClose h; EvClose])%list,
         Return (Some 1%Z))).
Proof.
  split.
  - intros df t w cols c1 h c2 msg c3 c4 Hjoin Hcur query rows Hcommit Hrb Hcc.
    subst query rows. unfold insert_statement in *.
    unfold insert_into_table. rewrite Hjoin.
    unfold_py. rewrite Hcur; simpl.
    rewrite insert_loop_runs_every_row with (h := h) by reflexivity.
    simpl. rewrite Hcommit; simpl. rewrite Hrb; simpl. rewrite Hcc; simpl.
    rewrite <- ?app_assoc. reflexivity.
  - intros cf fv uc uv t w c1 h c2 c3 msg c4 c5 c6 H1 H2 H3 H4 H5 H6.
    unfold update_multiple_columns_by_multi_filter. unfold_py.
    rewrite H1; simpl. rewrite H2; simpl. rewrite H3; simpl.
    rewrite H4; simpl. rewrite H5; simpl. rewrite H6; simpl. trace_eq.
Qed.

Ltac shape_cases :=
  repeat case_client;
  (eexists; split; [rewrite <- ?app_assoc; simpl; reflexivity | reflexivity]).

(** X15. Each update is one transaction of its own: once the cursor is
    obtained the statement is executed once; when it is accepted the next
    call is [commit], when it is rejected the next call is [rollback] and
    no [commit] is ever made; nothing is executed after that. *)
Theorem update_is_one_transaction cf fv uc uv t (w : World D) c1 h :
  d_cursor D (w_conn w) = (c1, DOk h) ->
  let query := update_query py_repr t cf uc uv in
  let params := Some (coerce_filter_values fv) in
  (forall c2,
      d_execute D h query params c1 = (c2, DOk tt) ->
      exists tail,
        w_trace (fst (update cf fv uc uv t w))
        = (w_trace w ++ EvCursor :: EvExecute h query params :: EvCommit :: tail)%list /\
        forallb (fun e => negb (is_execute e || is_commit e)) tail = true) /\
  (forall c2 msg,
      d_execute D h query params c1 = (c2, DErr msg) ->
      exists tail,
        w_trace (fst (update cf fv uc uv t w))
        = (w_trace w ++ EvCursor :: EvExecute h query params :: EvRollback :: tail)%list /\
        forallb (fun e => negb (is_execute e || is_commit e)) tail = true).
Proof.
  intros Hcur query params. subst query params. split.
  - intros c2 Hexe. unfold update_multiple_columns_by_multi_filter. unfold_py.
    rewrite Hcur; simpl. rewrite Hexe; simpl. shape_cases.
  - intros c2 msg Hexe. unfold update_multiple_columns_by_multi_filter. unfold_py.
    rewrite Hcur; simpl. rewrite Hexe; simpl. shape_cases.
Qed.

(** X1. The bulk update answers [False] exactly for an empty frame (no rows,
    or no columns), and then without a single call on the connection. *)
Theorem bulk_update_false_iff_empty new_df filter_col table_name (w : World D) :
  (empty new_df = true ->
   update_rows new_df filter_col table_name w = (w, Return (Some false))) /\
  (snd (update_rows new_df filter_col table_name w) = Return (Some false) ->
   empty new_df = true).
Proof.
  split.
  - intros He. rewrite update_rows_unfold, He. reflexivity.
  - destruct (empty new_df) eqn:He; [reflexivity |].
    rewrite update_rows_unfold, He. unfold call, bind.
    pose proof (sync_loop_never_returns py_repr (columns new_df) filter_col
                  table_name (iterrows new_df) no_locals w) as Hloop.
    destruct (for_each _ _ _ _) as [[l' w'] [[] | r | e]]; simpl;
      [discriminate | contradiction | discriminate].
Qed.

(** X2. A non-empty frame without the filter column makes the bulk update
    raise [KeyError] at its first row, before any call on the
    connection. *)
Theorem bulk_update_missing_filter_column new_df filter_col table_name
        (w : World D) :
  empty new_df = false ->
  (forall l, In l (columns new_df) -> label_is filter_col l = false) ->
  update_rows new_df filter_col table_name w = (w, Raise (KeyError filter_col)).
Proof.
  intros Hne Hno. rewrite update_rows_unfold, Hne.
  unfold empty in Hne. apply orb_false_iff in Hne as [_ Hrows].
  unfold iterrows. destruct (values new_df) as [| r rest]; [discriminate |].
  simpl map. simpl for_each. unfold call, bind. unfold sync_row at 1.
  unfold bind, lift_outcome, row_getitem.
  rewrite (no_label_no_item _ r filter_col Hno). reflexivity.
Qed.
End Writes.

(** ** Further properties: the bulk update row by row *)

Section BulkRows.
Context {D : Driver}.
Variable py_repr : value -> string.

Local Abbreviation update :=
  (update_multiple_columns_by_multi_filter (D := D) py_repr).
Local Abbreviation update_rows := (update_rows_in_database (D := D) py_repr).

Lemma update_one_statement cf fv uc uv t (w : World D) :
  bookkeeping_never_raises (D := D) ->
  exists w' evs,
    update cf fv uc uv t w = (w', Return (Some 1%Z)) /\
    w_trace w' = (w_trace w ++ evs)%list /\
    statements_of evs
    = [(update_query py_repr t cf uc uv, Some (coerce_filter_values fv))].
Proof.
  intros (Hcur & Hrb & Hcc & Hcl).
  unfold update_multiple_columns_by_multi_filter. unfold_py.
  destruct (Hcur (w_conn w)) as (c1 & h & ->); simpl.
  case_client; [case_client |].
  - destruct (Hcc h c0) as (c3 & ->); simpl.
    destruct (Hcl c3) as (c4 & ->); simpl.
    do 2 eexists. split; [reflexivity |]. simpl.
    split; [rewrite <- ?app_assoc; simpl; reflexivity | reflexivity].
  - destruct (Hrb c0) as (c3 & ->); simpl.
    destruct (Hcc h c3) as (c4 & ->); simpl.
    destruct (Hcl c4) as (c5 & ->); simpl.
    do 2 eexists. split; [reflexivity |]. simpl.
    split; [rewrite <- ?app_assoc; simpl; reflexivity | reflexivity].
  - destruct (Hrb c) as (c3 & ->); simpl.
    destruct (Hcc h c3) as (c4 & ->); simpl.
    destruct (Hcl c4) as (c5 & ->); simpl.
    do 2 eexists. split; [reflexivity |]. simpl.
    split; [rewrite <- ?app_assoc; simpl; reflexivity | reflexivity].
Qed.

Lemma sync_loop_statements new_df filter_col table_name rows l (w : World D) :
  bookkeeping_never_raises (D := D) ->
  Forall (fun row => is_return (row_getitem row filter_col) = true) rows ->
  exists w' evs,
    for_each rows (sync_row py_repr (columns new_df) filter_col table_name) l w
    = (l, w', Next tt) /\
    w_trace w' = (w_trace w ++ evs)%list /\
    Forall2 (statement_of_row py_repr new_df filter_col table_name)
            rows (statements_of evs).
Proof.
  intros Hok Hkeys. revert w.
  induction Hkeys as [| row rows Hkey _ IH]; intros w.
  - exists w, []. simpl. unfold pure. rewrite app_nil_r. repeat split. constructor.
  - simpl. unfold bind at 1. unfold sync_row at 1.
    unfold bind, lift_outcome, call_fn.
    destruct (row_getitem row filter_col) as [key | e] eqn:Hrow; simpl in *;
      [| discriminate].
    destruct (update_one_statement [VStr filter_col] key (columns new_df)
                (row_values row) table_name w Hok)
      as (w1 & evs1 & -> & Htr1 & Hst1).
    simpl. destruct (IH w1) as (w2 & evs2 & Hloop & Htr2 & Hst2).
    exists w2, (evs1 ++ evs2)%list. split; [exact Hloop | split].
    + rewrite Htr2, Htr1. now rewrite app_assoc.
    + rewrite statements_of_app, Hst1. simpl. constructor; [| exact Hst2].
      exists key. split; [exact Hrow | reflexivity].
Qed.

(** X3. On a connection whose bookkeeping calls return, the bulk update
    executes exactly one statement per row of the frame, in the order of
    the rows, each the update rendered for that row, whatever the engine
    answered to the earlier ones. *)
Theorem bulk_update_one_statement_per_row new_df filter_col table_name
        (w : World D) :
  empty new_df = false ->
  bookkeeping_never_raises (D := D) ->
  Forall (fun row => is_return (row_getitem row filter_col) = true)
         (iterrows new_df) ->
  exists evs,
    w_trace (fst (update_rows new_df filter_col table_name w))
    = (w_trace w ++ evs)%list /\
    Forall2 (statement_of_row py_repr new_df filter_col table_name)
            (iterrows new_df) (statements_of evs).
Proof.
  intros Hne Hok Hkeys. rewrite update_rows_unfold, Hne. unfold call, bind.
  destruct (sync_loop_statements new_df filter_col table_name (iterrows new_df)
              no_locals w Hok Hkeys) as (w' & evs & -> & Htr & Hst).
  simpl. exists evs. split; assumption.
Qed.

Lemma update_statement_count cf fv uc uv t (w : World D) :
  exists evs,
    w_trace (fst (update cf fv uc uv t w)) = (w_trace w ++ evs)%list /\
    length (statements_of evs) <= 1.
Proof.
  unfold update_multiple_columns_by_multi_filter. unfold_py.
  repeat case_client;
    (eexists; split; [rewrite <- ?app_assoc; simpl; reflexivity | simpl; lia]).
Qed.

Lemma sync_row_cases cols filter_col table_name row l (w : World D) :
  sync_row py_repr cols filter_col table_name row l w
  = match row_getitem row filter_col with
    | Raise e => (l, w, Exc e)
    | Return key =>
        match update [VStr filter_col] key cols (row_values row) table_name w with
        | (w', Return r) =>
            if negb (truthy r) then (l, w', Ret (Some false)) else (l, w', Next tt)
        | (w', Raise e) => (l, w', Exc e)
        end
    end.
Proof.
  unfold sync_row, bind, lift_outcome, call_fn, pure, raise, return_.
  destruct (row_getitem row filter_col) as [key | e]; [| reflexivity].
  destruct (update _ _ _ _ _ w) as [w' [r | e]]; [| reflexivity].
  destruct (negb (truthy r)); reflexivity.
Qed.

Lemma raised_some {R} (o : outcome R) e : raised o = Some e -> o = Raise e.
Proof. destruct o; simpl; congruence. Qed.

(** X4. On a connection whose [cursor()] raises once it has been closed, the
    bulk update of a frame of two or more rows never completes: the first
    row's update closes the connection, so the call ends in an exception,
    and at most one statement has been executed. *)
Theorem bulk_update_cannot_pass_first_row new_df filter_col table_name
        (w : World D) c1 h row1 row2 rest :
  iterrows new_df = row1 :: row2 :: rest ->
  empty new_df = false ->
  dead_after_close (D := D) ->
  d_cursor D (w_conn w) = (c1, DOk h) ->
  (forall c, exists c', d_cursor_close D h c = (c', DOk tt)) ->
  is_return (snd (update_rows new_df filter_col table_name w)) = false /\
  exists evs,
    w_trace (fst (update_rows new_df filter_col table_name w))
    = (w_trace w ++ evs)%list /\
    length (statements_of evs) <= 1.
Proof.
  intros Hrows Hne Hdead Hcur Hcc.
  rewrite update_rows_unfold, Hne, Hrows. simpl for_each. unfold call, bind.
  rewrite sync_row_cases.
  destruct (row_getitem row1 filter_col) as [key1 | e1]; simpl.
  2:{ split; [reflexivity |]. exists []. rewrite app_nil_r.
      split; [reflexivity | simpl; lia]. }
  destruct (update_statement_count [VStr filter_col] key1 (columns new_df)
              (row_values row1) table_name w) as (evs1 & Htr1 & Hn1).
  pose proof (update_status_is_one py_repr [VStr filter_col] key1
                (columns new_df) (row_values row1) table_name w) as Hone.
  destruct (update_closes py_repr [VStr filter_col] key1 (columns new_df)
              (row_values row1) table_name w c1 h Hcur Hcc)
    as (evs0 & c & _ & Hconn).
  destruct (update _ _ _ _ _ w) as [w1 [r1 | e1]]; simpl in *.
  2:{ split; [reflexivity |]. exists evs1. split; assumption. }
  subst r1. simpl. rewrite sync_row_cases.
  destruct (row_getitem row2 filter_col) as [key2 | e2]; simpl.
  2:{ split; [reflexivity |]. exists evs1. split; assumption. }
  destruct (Hdead c) as (c' & msg & Hfail). rewrite <- Hconn in Hfail.
  pose proof (cursor_failure_run py_repr _ w1 c' msg
                (cursor_update py_repr [VStr filter_col] key2 (columns new_df)
                               (row_values row2) table_name) Hfail) as Hrun.
  unfold forget in Hrun. injection Hrun as Hw2 Hexn.
  apply raised_some in Hexn.
  destruct (update _ _ _ _ _ w1) as [w2 o2]; simpl in *. subst o2 w2. simpl.
  split; [reflexivity |].
  exists (evs1 ++ [EvCursor; EvRollback])%list. split.
  - rewrite Htr1. now rewrite <- app_assoc.
  - rewrite statements_of_app. simpl. rewrite app_nil_r. exact Hn1.
Qed.
End BulkRows.

(** ** The further properties at concrete inputs *)

Lemma mock_dead_after_close rejects rows_of :
  dead_after_close (D := mock false rejects rows_of).
Proof. intros c. simpl. do 2 eexists. reflexivity. Defined.

Lemma cursor_failure_escapes_witness :
  let D := mock false accepts_all no_rows in
  let closed : World D :=
    mkWorld (D := D) (mkMockConn false 0 EmptyString [] []) [] in
  d_cursor D (w_conn closed)
  = (w_conn closed, DErr "MySQL Connection not available") /\
  snd (forget (get_table_columns "t") closed)
  = Some (UnboundLocalError "cursor") /\
  snd (forget (get_all_with_filter simple_repr [VInt 3] "t" "id") closed)
  = Some (UnboundLocalError "cursor") /\
  w_trace (fst (forget (insert_into_table three_rows "t") closed))
  = [EvCursor; EvRollback].
Proof.
  intros D closed. split; [reflexivity |].
  split; [| split].
  - apply (cursor_failure_escapes simple_repr _ closed (w_conn closed)
             "MySQL Connection not available" (cursor_describe simple_repr "t")
             eq_refl).
  - apply (cursor_failure_escapes simple_repr _ closed (w_conn closed)
             "MySQL Connection not available"
             (cursor_in_filter simple_repr [VInt 3] "t" "id") eq_refl).
  - apply (cursor_failure_escapes simple_repr _ closed (w_conn closed)
             "MySQL Connection not available"
             (cursor_insert simple_repr three_rows "t" "id, name" eq_refl)
             eq_refl).
Defined.

Lemma connection_kept_open_witness :
  let w := fresh_world false accepts_all table_t in
  (exists evs,
      w_trace (fst (get_table_columns "t" w)) = (w_trace w ++ evs)%list /\
      forallb (fun e => negb (is_close e)) evs = true) /\
  alive (w_conn (fst (get_table_columns "t" w))) = true.
Proof.
  intros w. split; [| reflexivity].
  apply (connection_kept_open (fun w => fst (get_table_columns "t" w)) w).
  apply keeping_describe.
Defined.


Lemma select_all_returns_frame_or_none_witness :
  let found := fresh_world false accepts_all table_t in
  let failing := fresh_world false rejects_all no_rows in
  snd (get_all_data_from_table "t" found)
  = Return (Some (DataFrame_of_rows [[VInt 3; VStr "c"]])) /\
  snd (get_all_data_from_table "t" failing) = Return None.
Proof.
  intros found failing.
  pose (c1 := mkMockConn true 1 EmptyString [] []).
  split.
  - destruct (select_all_returns_frame_or_none
                (D := mock false accepts_all table_t) "t" found c1 0 eq_refl)
      as (Hok & _ & _).
    erewrite Hok; reflexivity.
  - destruct (select_all_returns_frame_or_none
                (D := mock false rejects_all no_rows) "t" failing c1 0 eq_refl)
      as (_ & Hrejected & _).
    erewrite Hrejected; reflexivity.
Defined.

Lemma get_table_columns_returns_first_items_witness :
  let w := fresh_world false accepts_all table_t in
  Forall (fun row : list value => row <> []) (table_t (describe_query "t")) /\
  snd (get_table_columns "t" w) = Return (Some id_name).
Proof.
  intros w.
  assert (Hrows : Forall (fun row : list value => row <> [])
                         (table_t (describe_query "t")))
    by (repeat constructor; discriminate).
  split; [exact Hrows |].
  pose (c1 := mkMockConn true 1 EmptyString [] []).
  pose (c2 := mkMockConn true 1 (describe_query "t")
                         [(describe_query "t", None)] []).
  destruct (get_table_columns_returns_first_items
              (D := mock false accepts_all table_t) "t" w c1 0 c2 c2
              (table_t (describe_query "t")) c2 eq_refl eq_refl eq_refl eq_refl)
    as [Hnames _].
  rewrite (Hnames Hrows). reflexivity.
Defined.

Lemma filtered_read_failure_is_unbound_result_witness :
  let w := fresh_world false rejects_all no_rows in
  snd (get_all_with_multiple_filters simple_repr [VStr "id"] (VTuple [VInt 3])
         "t" w)
  = Raise (UnboundLocalError "result").
Proof.
  intros w.
  erewrite (filtered_read_failure_is_unbound_result
              (D := mock false rejects_all no_rows) simple_repr _ _ _ _ w
              _ 0 _ _ _ _ _
              (read_equality_filter simple_repr [VStr "id"] (VTuple [VInt 3]) "t"));
    reflexivity.
Defined.

Lemma unlabelled_frame_when_schema_query_raises_witness :
  let D := failing_inner_close table_t in
  let w : World D := mkWorld (D := D) fresh_conn [] in
  empty (DataFrame_of_rows [[VInt 3; VStr "c"]]) = false /\
  snd (get_all_with_filter simple_repr [VInt 3] "t" "id" w)
  = Return (Some (mkDataFrame [VInt 0; VInt 1] [[VInt 3; VStr "c"]])).
Proof.
  intros D w. split; [reflexivity |].
  erewrite (unlabelled_frame_when_schema_query_raises
              (D := D) simple_repr _ _ _ _ w _ 0 _ _ [[VInt 3; VStr "c"]]
              _ _ _ _ _
              (read_in_filter simple_repr [VInt 3] "t" "id"));
    reflexivity.
Defined.

Lemma label_count_mismatch_raises_value_error_witness :
  let w := fresh_world false accepts_all table_one_name in
  length [VStr "id"] <> length (columns (DataFrame_of_rows [[VInt 3; VStr "c"]])) /\
  snd (get_all_with_filter simple_repr [VInt 3] "t" "id" w)
  = Raise (ValueError "Length mismatch").
Proof.
  intros w.
  assert (Hlen : length [VStr "id"]
                 <> length (columns (DataFrame_of_rows [[VInt 3; VStr "c"]])))
    by (vm_compute; discriminate).
  split; [exact Hlen |].
  erewrite (label_count_mismatch_raises_value_error
              (D := mock false accepts_all table_one_name) simple_repr
              _ _ _ _ w _ 0 _ _ [[VInt 3; VStr "c"]] _ [VStr "id"] _ _
              (read_in_filter simple_repr [VInt 3] "t" "id"));
    first [exact Hlen | reflexivity].
Defined.

Lemma insert_rejects_unnamed_columns_witness :
  let w := fresh_world false accepts_all no_rows in
  Exists (fun l => is_str l = false) (columns unnamed_column) /\
  insert_into_table unnamed_column "t" w
  = (w, Raise (TypeError "sequence item: expected str instance")).
Proof.
  intros w.
  assert (Hbad : Exists (fun l => is_str l = false) (columns unnamed_column))
    by (right; left; reflexivity).
  split; [exact Hbad |].
  exact (insert_rejects_unnamed_columns unnamed_column "t" w Hbad).
Defined.

Lemma failed_commit_reported_as_success_witness :
  let D := failing_commit accepts_all in
  let w : World D := mkWorld (D := D) fresh_conn [] in
  (snd (insert_into_table three_rows "t" w) = Return (Some 1%Z) /\
   committed (w_conn (fst (insert_into_table three_rows "t" w))) = []) /\
  (snd (update_multiple_columns_by_multi_filter simple_repr [VStr "id"] (VInt 1)
          [VStr "name"] [VStr "z"] "t" w) = Return (Some 1%Z) /\
   committed (w_conn (fst (update_multiple_columns_by_multi_filter simple_repr
                             [VStr "id"] (VInt 1) [VStr "name"] [VStr "z"]
                             "t" w))) = []).
Proof.
  intros D w.
  destruct (failed_commit_reported_as_success (D := D) simple_repr)
    as [Hinsert Hupdate].
  split.
  - erewrite (Hinsert three_rows "t" w "id, name" _ 0); [| reflexivity ..].
    split; reflexivity.
  - erewrite (Hupdate [VStr "id"] (VInt 1) [VStr "name"] [VStr "z"] "t" w _ 0);
      [| reflexivity ..].
    split; reflexivity.
Defined.

Lemma update_is_one_transaction_witness :
  let w := fresh_world false (rejects_id 2) no_rows in
  let query := update_query simple_repr "t" [VStr "id"] [VStr "name"] [VStr "z"] in
  (exists tail,
      w_trace (fst (update_multiple_columns_by_multi_filter simple_repr
                      [VStr "id"] (VInt 1) [VStr "name"] [VStr "z"] "t" w))
      = EvCursor :: EvExecute 0 query (Some (VTuple [VInt 1])) :: EvCommit :: tail /\
      forallb (fun e => negb (is_execute e || is_commit e)) tail = true) /\
  (exists tail,
      w_trace (fst (update_multiple_columns_by_multi_filter simple_repr
                      [VStr "id"] (VInt 2) [VStr "name"] [VStr "z"] "t" w))
      = EvCursor :: EvExecute 0 query (Some (VTuple [VInt 2])) :: EvRollback :: tail /\
      forallb (fun e => negb (is_execute e || is_commit e)) tail = true).
Proof.
  intros w query.
  pose (c1 := mkMockConn true 1 EmptyString [] []).
  split.
  - destruct (update_is_one_transaction
                (D := mock false (rejects_id 2) no_rows) simple_repr
                [VStr "id"] (VInt 1) [VStr "name"] [VStr "z"] "t" w c1 0 eq_refl)
      as [Haccepted _].
    exact (Haccepted _ eq_refl).
  - destruct (update_is_one_transaction
                (D := mock false (rejects_id 2) no_rows) simple_repr
                [VStr "id"] (VInt 2) [VStr "name"] [VStr "z"] "t" w c1 0 eq_refl)
      as [_ Hrejected].
    exact (Hrejected c1 "statement rejected" eq_refl).
Defined.

Lemma bulk_update_false_iff_empty_witness :
  let w := fresh_world false accepts_all no_rows in
  let no_rows_frame := mkDataFrame id_name [] in
  let no_columns_frame := mkDataFrame [] [[]; []] in
  empty no_rows_frame = true /\
  empty no_columns_frame = true /\
  update_rows_in_database simple_repr no_rows_frame "id" "t" w
  = (w, Return (Some false)) /\
  update_rows_in_database simple_repr no_columns_frame "id" "t" w
  = (w, Return (Some false)).
Proof.
  intros w no_rows_frame no_columns_frame.
  split; [reflexivity | split; [reflexivity | split]].
  - exact (proj1 (bulk_update_false_iff_empty simple_repr no_rows_frame
                    "id" "t" w) eq_refl).
  - exact (proj1 (bulk_update_false_iff_empty simple_repr no_columns_frame
                    "id" "t" w) eq_refl).
Defined.

Lemma bulk_update_missing_filter_column_witness :
  let w := fresh_world false accepts_all no_rows in
  empty three_rows = false /\
  (forall l, In l (columns three_rows) -> label_is "key" l = false) /\
  update_rows_in_database simple_repr three_rows "key" "t" w
  = (w, Raise (KeyError "key")).
Proof.
  intros w.
  assert (Hno : forall l, In l (columns three_rows) -> label_is "key" l = false).
  { intros l [<- | [<- | []]]; reflexivity. }
  split; [reflexivity | split; [exact Hno |]].
  exact (bulk_update_missing_filter_column simple_repr three_rows "key" "t" w
           eq_refl Hno).
Defined.

Lemma bulk_update_one_statement_per_row_witness :
  let w := fresh_world true (rejects_id 2) no_rows in
  empty three_rows = false /\
  Forall (fun row => is_return (row_getitem row "id") = true)
         (iterrows three_rows) /\
  exists evs,
    w_trace (fst (update_rows_in_database simple_repr three_rows "id" "t" w))
    = evs /\
    Forall2 (statement_of_row simple_repr three_rows "id" "t")
            (iterrows three_rows) (statements_of evs).
Proof.
  intros w.
  assert (Hkeys : Forall (fun row => is_return (row_getitem row "id") = true)
                         (iterrows three_rows))
    by (repeat constructor).
  split; [reflexivity | split; [exact Hkeys |]].
  exact (bulk_update_one_statement_per_row simple_repr three_rows "id" "t" w
           eq_refl (mock_bookkeeping_never_raises (rejects_id 2) no_rows) Hkeys).
Defined.

Lemma bulk_update_cannot_pass_first_row_witness :
  let w := fresh_world false accepts_all no_rows in
  iterrows two_rows
  = [[(VStr "id", VInt 1); (VStr "name", VStr "a")];
     [(VStr "id", VInt 2); (VStr "name", VStr "b")]] /\
  is_return (snd (update_rows_in_database simple_repr two_rows "id" "t" w))
  = false /\
  exists evs,
    w_trace (fst (update_rows_in_database simple_repr two_rows "id" "t" w))
    = evs /\
    length (statements_of evs) <= 1.
Proof.
  intros w. split; [reflexivity |].
  exact (bulk_update_cannot_pass_first_row simple_repr two_rows "id" "t" w
           (mkMockConn true 1 EmptyString [] []) 0 _ _ [] eq_refl eq_refl
           (mock_dead_after_close accepts_all no_rows) eq_refl
           (fun c => ex_intro _ c eq_refl)).
Defined.

(** ** Closing the borrowed connection, and when it is not closed *)

Section BorrowedConnection.
Context {D : Driver}.
Variable py_repr : value -> string.

(** C10, as the code has it. A filtered read or a multi-filter update
    that obtained its cursor, and whose release of that cursor returns,
    ends by closing the cursor and then the connection it was lent,
    whether the statement ran, returned no rows, or raised: the trace of
    the call ends with the two closes and the connection is left in the
    state [close()] put it in. On a connection whose [cursor()] raises
    once it has been closed, every later call of the module on it then
    fails without executing anything. *)
Theorem borrowed_connection_closed_once_cursor_obtained op (w : World D) c1 h :
  closing_call (D := D) py_repr op ->
  d_cursor D (w_conn w) = (c1, DOk h) ->
  (forall c, exists c', d_cursor_close D h c = (c', DOk tt)) ->
  closed_on_exit h w (op w) /\
  (dead_after_close (D := D) ->
   forall f,
     cursor_call py_repr f ->
     snd (f (op w)) = Some (UnboundLocalError "cursor") /\
     w_trace (fst (f (op w))) = (w_trace (op w) ++ [EvCursor; EvRollback])%list).
Proof.
  intros Hop Hcur Hcc.
  pose proof (closing_call_closes py_repr op w c1 h Hop Hcur Hcc) as Hclosed.
  split; [exact Hclosed |].
  intros Hdead f Hf.
  destruct Hclosed as (evs & c & _ & Hconn).
  destruct (Hdead c) as (c' & msg & Hfail). rewrite <- Hconn in Hfail.
  rewrite (cursor_failure_run py_repr f (op w) c' msg Hf Hfail).
  split; reflexivity.
Qed.
End BorrowedConnection.

(** C10 fails as worded, on two paths. On a live connection that refuses
    to hand out a cursor, both filtered reads and the update roll back
    and end in [UnboundLocalError] without calling [close()]: the
    connection is as alive as before. On a connection on which the
    release of the cursor raises, the update commits and ends in that
    error, again without closing the connection. *)
Lemma connection_left_open_on_two_paths :
  let busy : World busy_cursor := mkWorld (D := busy_cursor) fresh_conn [] in
  let stuck : World failing_cursor_close :=
    mkWorld (D := failing_cursor_close) fresh_conn [] in
  let query := update_query simple_repr "t" [VStr "id"] [VStr "name"] [VStr "d"] in
  (get_all_with_filter simple_repr [VInt 3] "t" "id" busy
   = (mkWorld (D := busy_cursor) fresh_conn [EvCursor; EvRollback],
      Raise (UnboundLocalError "cursor")) /\
   get_all_with_multiple_filters simple_repr [VStr "id"] (VTuple [VInt 3]) "t" busy
   = (mkWorld (D := busy_cursor) fresh_conn [EvCursor; EvRollback],
      Raise (UnboundLocalError "cursor")) /\
   update_multiple_columns_by_multi_filter simple_repr [VStr "id"] (VInt 3)
     [VStr "name"] [VStr "d"] "t" busy
   = (mkWorld (D := busy_cursor) fresh_conn [EvCursor; EvRollback],
      Raise (UnboundLocalError "cursor")) /\
   alive fresh_conn = true) /\
  (snd (update_multiple_columns_by_multi_filter simple_repr [VStr "id"] (VInt 3)
          [VStr "name"] [VStr "d"] "t" stuck)
   = Raise (ConnectorError "Unread result found") /\
   w_trace (fst (update_multiple_columns_by_multi_filter simple_repr [VStr "id"]
                   (VInt 3) [VStr "name"] [VStr "d"] "t" stuck))
   = [EvCursor; EvExecute 0 query (Some (VTuple [VInt 3])); EvCommit;
      EvCursorClose 0] /\
   alive (w_conn (fst (update_multiple_columns_by_multi_filter simple_repr
                         [VStr "id"] (VInt 3) [VStr "name"] [VStr "d"] "t" stuck)))
   = true).
Proof. vm_compute. repeat split. Qed.

Lemma borrowed_connection_closed_once_cursor_obtained_witness :
  let D := mock false (rejects_id 3) table_t in
  let w := fresh_world false (rejects_id 3) table_t in
  let op := fun w : World D =>
    fst (update_multiple_columns_by_multi_filter simple_repr [VStr "id"]
           (VInt 3) [VStr "name"] [VStr "d"] "t" w) in
  let read := get_all_with_filter (D := D) simple_repr [VInt 3] "t" "id" in
  d_cursor D (w_conn w) = (mkMockConn true 1 EmptyString [] [], DOk 0) /\
  closed_on_exit 0 w (op w) /\
  closed_on_exit 0 w (fst (read w)) /\
  alive (w_conn (op w)) = false /\
  snd (forget read (op w)) = Some (UnboundLocalError "cursor").
Proof.
  intros D w op read.
  pose (c1 := mkMockConn true 1 EmptyString [] []).
  assert (Hcc : forall c : dstate D,
             exists c', d_cursor_close D 0 c = (c', DOk tt))
    by (intros c; eexists; reflexivity).
  destruct (borrowed_connection_closed_once_cursor_obtained
              simple_repr op w c1 0
              (closing_update simple_repr [VStr "id"] (VInt 3) [VStr "name"]
                              [VStr "d"] "t")
              eq_refl Hcc) as [Hclosed Hlater].
  destruct (borrowed_connection_closed_once_cursor_obtained
              simple_repr (fun w => fst (read w)) w c1 0
              (closing_in_filter simple_repr [VInt 3] "t" "id")
              eq_refl Hcc) as [Hread _].
  split; [reflexivity | split; [exact Hclosed | split; [exact Hread |]]].
  split; [reflexivity |].
  exact (proj1 (Hlater (mock_dead_after_close (rejects_id 3) table_t)
                       (forget read)
                       (cursor_in_filter simple_repr [VInt 3] "t" "id"))).
Defined.

(** C3 fails as worded: not every path hands a status back. On a
    connection that is closed, the update rolls back and ends in
    [UnboundLocalError]; and since the update closes the connection it
    was lent, the bulk update of a frame of two rows commits the first
    row, fails to get a cursor for the second and ends in that exception
    instead of answering [True]. *)
Lemma update_status_not_handed_back :
  let D := mock false accepts_all no_rows in
  let closed : World D :=
    mkWorld (D := D) (mkMockConn false 0 EmptyString [] []) [] in
  let bulk :=
    update_rows_in_database simple_repr two_rows "id" "t"
      (fresh_world false accepts_all no_rows) in
  update_multiple_columns_by_multi_filter simple_repr [VStr "id"] (VInt 1)
    id_name [VInt 1; VStr "a"] "t" closed
  = (mkWorld (D := D) (mkMockConn false 0 EmptyString [] [])
             [EvCursor; EvRollback],
     Raise (UnboundLocalError "cursor")) /\
  empty two_rows = false /\
  snd bulk = Raise (UnboundLocalError "cursor") /\
  w_trace (fst bulk)
  = [EvCursor;
     EvExecute 0 (fst (update_of_row 1 "a")) (snd (update_of_row 1 "a"));
     EvCommit; EvCursorClose 0; EvClose; EvCursor; EvRollback] /\
  committed (w_conn (fst bulk)) = [update_of_row 1 "a"].
Proof. vm_compute. repeat split. Qed.
